(** * The semantic engine of hntrl/lang: primitive kernel and statement engine

    A shallow embedding of [build/literals.go] (the primitive classes, their
    constructors, comparators and operators) and of the statement engine
    (function binding, assignment, if / while / for / switch / guard, blocks,
    return coverage), followed by the properties of the specification that
    were checked against them.

    Conventions.
    - A Go call that returns [(value, error)] returns a [Res]: [Ok v],
      [Fail e] (a non-nil error) or [Panic msg] (a run-time panic: a failed
      type assertion, an index out of range, a nil dereference, a nil call).
    - A Go interface value that may be [nil] is an [option].
    - [float64] is Rocq's primitive binary64 [float]; [int64] is a [Z].
    - Methods with a [*SymbolTable] receiver pass the table explicitly and
      return the table they leave behind.
    - The evaluator can loop, so it takes fuel; [OutOfFuel] marks a run cut
      short by the fuel bound, which is not a behaviour of the program.
      Only the fuelled functions can produce it. *)

From Stdlib Require Import ZArith Bool List.
From Stdlib Require Import Floats.
From stdpp Require Import base option countable gmap strings pretty.

Import ListNotations.
#[local] Set Warnings "-register-all".
Local Open Scope string_scope.
Local Open Scope Z_scope.

(** ** Outcomes of a Go call *)

Inductive Res (E A : Type) : Type :=
| Ok (a : A)
| Fail (e : E)
| Panic (msg : string)
| OutOfFuel.

Arguments Ok {E A} a.
Arguments Fail {E A} e.
Arguments Panic {E A} msg.
Arguments OutOfFuel {E A}.

Definition bindR {E A B} (r : Res E A) (k : A -> Res E B) : Res E B :=
  match r with
  | Ok a => k a
  | Fail e => Fail e
  | Panic m => Panic m
  | OutOfFuel => OutOfFuel
  end.

Declare Scope res_scope.
Delimit Scope res_scope with res.
Notation "'let!' x ':=' r 'in' k" := (bindR r (fun x => k))
  (at level 10, x pattern, r at level 200, k at level 200,
   format "'[' 'let!'  x  ':='  r  'in' ']' '//' k") : res_scope.
Local Open Scope res_scope.

Definition isOk {E A} (r : Res E A) : bool :=
  match r with Ok _ => true | _ => false end.

(** ** Tokens *)

(** Modelled from the spec: the package [language/tokens] is declared
    elsewhere in the repository. These are the operator tokens the
    specification lists as those the engine matches on, with [ILLEGAL] for
    the zero value of [tokens.Token] that [getEffectOperator] returns when no
    case applies. *)

Inductive Token :=
| ILLEGAL
| ASSIGN | ADD_ASSIGN | SUB_ASSIGN | MUL_ASSIGN | PWR_ASSIGN | QUO_ASSIGN | REM_ASSIGN
| INC | DEC
| ADD | SUB | MUL | PWR | QUO | REM
| EQUALS | NOT_EQUALS | LESS | GREATER | LESS_EQUAL | GREATER_EQUAL
| AND | OR.

#[global] Instance Token_eq_dec : EqDecision Token.
Proof. solve_decision. Defined.

Definition Token_code (t : Token) : nat :=
  match t with
  | ILLEGAL => 0 | ASSIGN => 1 | ADD_ASSIGN => 2 | SUB_ASSIGN => 3
  | MUL_ASSIGN => 4 | PWR_ASSIGN => 5 | QUO_ASSIGN => 6 | REM_ASSIGN => 7
  | INC => 8 | DEC => 9 | ADD => 10 | SUB => 11 | MUL => 12 | PWR => 13
  | QUO => 14 | REM => 15 | EQUALS => 16 | NOT_EQUALS => 17 | LESS => 18
  | GREATER => 19 | LESS_EQUAL => 20 | GREATER_EQUAL => 21 | AND => 22 | OR => 23
  end%nat.

Definition Token_decode (n : nat) : Token :=
  match n with
  | 1 => ASSIGN | 2 => ADD_ASSIGN | 3 => SUB_ASSIGN
  | 4 => MUL_ASSIGN | 5 => PWR_ASSIGN | 6 => QUO_ASSIGN | 7 => REM_ASSIGN
  | 8 => INC | 9 => DEC | 10 => ADD | 11 => SUB | 12 => MUL | 13 => PWR
  | 14 => QUO | 15 => REM | 16 => EQUALS | 17 => NOT_EQUALS | 18 => LESS
  | 19 => GREATER | 20 => LESS_EQUAL | 21 => GREATER_EQUAL | 22 => AND | 23 => OR
  | _ => ILLEGAL
  end%nat.

#[global] Instance Token_countable : Countable Token.
Proof. apply (inj_countable' Token_code Token_decode). by intros []. Defined.

(** The arithmetic and the comparison tokens of the numeric rule maps. *)
Definition arithmeticTokens : list Token := [ADD; SUB; MUL; PWR; QUO; REM].
Definition comparisonTokens : list Token :=
  [EQUALS; NOT_EQUALS; LESS; GREATER; LESS_EQUAL; GREATER_EQUAL].

(** The keys under which the numeric classes register rules for [ops]. *)
Definition numericKeys (ops : list Token) : list (string * Token) :=
  list_prod ["Number"; "Double"; "Integer"; "Float"] ops.

(** ** Host data: int64, float64, interface{} *)

Definition minInt64 : Z := - 2 ^ 63.
Definition maxInt64 : Z := 2 ^ 63 - 1.

(** Go's [float64(i)] for an [int64] [i]: the nearest binary64, ties to even. *)
Definition float64_of_int64 (z : Z) : float :=
  if z =? minInt64 then (-0x1p63)%float
  else if z <? 0 then (- PrimFloat.of_uint63 (Uint63.of_Z (- z)))%float
  else PrimFloat.of_uint63 (Uint63.of_Z z).

(** Go's [int64(f)] for a [float64] [f]: truncation towards zero. When the
    truncated value does not fit (or [f] is NaN or infinite) Go leaves the
    result to the implementation; amd64 yields the least [int64]. *)
Definition int64_of_float64 (f : float) : Z :=
  match Prim2SF f with
  | S754_zero _ => 0
  | S754_finite s m e =>
      let mag := if 0 <=? e then Z.pos m * 2 ^ e else Z.pos m / 2 ^ (- e) in
      let v := if s then - mag else mag in
      if (minInt64 <=? v) && (v <=? maxInt64) then v else minInt64
  | _ => minInt64
  end.

(** What [Value()] hands back as an [interface{}]. *)
Inductive HostValue :=
| HNil
| HBool (b : bool)
| HString (s : string)
| HFloat64 (f : float)
| HInt64 (z : Z).

(** Functions of Go's standard library used by the kernel; they are taken as
    they are, the properties below hold for every choice of them. *)
Class GoLib := {
  math_Ceil : float -> float;
  math_Pow : float -> float -> float;
  math_Mod : float -> float -> float;
  Sprintf_v : HostValue -> string;            (* fmt.Sprintf("%v", x) *)
  strings_ToLower : string -> string;
  strings_ToUpper : string -> string;
}.

(** ** Classes and values of the primitive kernel *)

(** The nine classes of [literals.go] ([String_] is Go's [String]), and,
    modelled from the spec, the four the statement engine tests for, which
    are declared elsewhere in the repository: [GenericObject], [Type_] (Go's
    [Type], with its fields), [Iterable_] (with its [ParentType]) and
    [Error_]. In Go an [Iterable] and an [Error] are at once class and
    value; here the class view and the value view are kept apart. *)
Inductive Class :=
| Nil | Boolean | String_ | Number | Double | Float | Integer | Date | DateTime
| GenericObject
| Type_ (fields : gmap string Class)
| Iterable_ (ParentType : Class)
| Error_.

(** The values of [literals.go], and the values of [Iterable] and [Error]. *)
Inductive ValueObject :=
| NilLiteral
| BooleanLiteral (b : bool)
| StringLiteral (s : string)
| NumberLiteral (f : float)
| DoubleLiteral (f : float)
| FloatLiteral (f : float)
| IntegerLiteral (i : Z)
| DateLiteral
| DateTimeLiteral
| Iterable (ParentType : Class) (Items : list ValueObject)
| Error (message : string).

(** The Go [error] values the engine produces. [NodeError] drops the source
    position it is given; [Thrown] is an [Error] value used as an [error]. *)
Inductive error :=
| Errorf (msg : string)
| NodeError (msg : string)
| NotIterableError
| InoperableSwitchTargetError
| Thrown (e : ValueObject).

Definition R := Res error.

Definition ClassName (c : Class) : string :=
  match c with
  | Nil => "<nil>"
  | Boolean => "Boolean"
  | String_ => "String"
  | Number => "Number"
  | Double => "Double"
  | Float => "Float"
  | Integer => "Integer"
  | Date => "Date"
  | DateTime => "DateTime"
  | GenericObject => "GenericObject"
  | Type_ _ => "Type"
  | Iterable_ _ => "Iterable"
  | Error_ => "Error"
  end.

(** [v.Class()] *)
Definition Class_of (v : ValueObject) : Class :=
  match v with
  | NilLiteral => Nil
  | BooleanLiteral _ => Boolean
  | StringLiteral _ => String_
  | NumberLiteral _ => Number
  | DoubleLiteral _ => Double
  | FloatLiteral _ => Float
  | IntegerLiteral _ => Integer
  | DateLiteral => Date
  | DateTimeLiteral => DateTime
  | Iterable p _ => Iterable_ p
  | Error _ => Error_
  end.

(** [v.Value()] *)
Definition Value (v : ValueObject) : HostValue :=
  match v with
  | NilLiteral => HNil
  | BooleanLiteral b => HBool b
  | StringLiteral s => HString s
  | NumberLiteral f => HFloat64 f
  | DoubleLiteral f => HFloat64 f
  | FloatLiteral f => HFloat64 f
  | IntegerLiteral i => HInt64 i
  | DateLiteral => HNil
  | DateTimeLiteral => HNil
  | Iterable _ _ => HNil
  | Error _ => HNil
  end.

(** The values of the nine kernel classes of [literals.go]. *)
Definition primitive (v : ValueObject) : bool :=
  match v with
  | Iterable _ _ | Error _ => false
  | _ => true
  end.

(** The nine classes of [literals.go]. *)
Definition kernelClass (c : Class) : bool :=
  match c with
  | GenericObject | Type_ _ | Iterable_ _ | Error_ => false
  | _ => true
  end.

(** The four numeric classes. *)
Definition numericClass (c : Class) : bool :=
  match c with
  | Number | Double | Integer | Float => true
  | _ => false
  end.



(** ** Registries *)

(** Modelled from the spec: [ConstructorMap], [ComparatorRules] and
    [OperatorRules] are declared elsewhere in the repository. They are maps
    keyed by class identity (and operator token), where "two classes compare
    equal iff their [ClassName()] matches"; a lookup that misses yields Go's
    [nil], and adding under a key that is present replaces the entry. *)

Definition ConstructorFn : Type := ValueObject -> R ValueObject.
Definition OperatorFn : Type := ValueObject -> ValueObject -> R ValueObject.

Abbreviation ConstructorMap := (gmap string ConstructorFn).
Abbreviation OperatorRulesMap := (gmap (string * Token) OperatorFn).

Definition NewConstructorMap : ConstructorMap := ∅.
Definition AddConstructor (class : Class) (fn : ConstructorFn) (csMap : ConstructorMap)
  : ConstructorMap := <[ClassName class := fn]> csMap.
Definition ConstructorMap_Get (csMap : ConstructorMap) (class : Class) : option ConstructorFn :=
  csMap !! ClassName class.

Definition NewRules : OperatorRulesMap := ∅.
Definition AddRule (class : Class) (op : Token) (fn : OperatorFn) (rules : OperatorRulesMap)
  : OperatorRulesMap := <[(ClassName class, op) := fn]> rules.
Definition Rules_Get (rules : OperatorRulesMap) (class : Class) (op : Token) : option OperatorFn :=
  rules !! (ClassName class, op).

(** Calling a function value that may be [nil]. *)
Definition call1 (fn : option ConstructorFn) (v : ValueObject) : R ValueObject :=
  match fn with
  | Some f => f v
  | None => Panic "invalid memory address or nil pointer dereference"
  end.

(** ** Type assertions [x.(T)] in their single-value form: a miss panics *)

Definition asBooleanLiteral (obj : ValueObject) : R bool :=
  match obj with BooleanLiteral b => Ok b | _ => Panic "interface conversion: not BooleanLiteral" end.
Definition asNumberLiteral (obj : ValueObject) : R float :=
  match obj with NumberLiteral f => Ok f | _ => Panic "interface conversion: not NumberLiteral" end.
Definition asDoubleLiteral (obj : ValueObject) : R float :=
  match obj with DoubleLiteral f => Ok f | _ => Panic "interface conversion: not DoubleLiteral" end.
Definition asFloatLiteral (obj : ValueObject) : R float :=
  match obj with FloatLiteral f => Ok f | _ => Panic "interface conversion: not FloatLiteral" end.
Definition asIntegerLiteral (obj : ValueObject) : R Z :=
  match obj with IntegerLiteral i => Ok i | _ => Panic "interface conversion: not IntegerLiteral" end.
Definition asFloat64 (val : HostValue) : R float :=
  match val with HFloat64 f => Ok f | _ => Panic "interface conversion: interface {} is not float64" end.

Section Kernel.
Context {lib : GoLib}.

(** *** Boolean *)

Definition Boolean_Constructors : ConstructorMap :=
  AddConstructor Boolean (fun obj => let! b := asBooleanLiteral obj in Ok (BooleanLiteral b))
    NewConstructorMap.

(** Go's [&&] and [||] evaluate their right operand only when needed. *)
Definition Boolean_ComparableRules : OperatorRulesMap :=
  AddRule Boolean OR (fun a b =>
      let! x := asBooleanLiteral a in
      if x then Ok (BooleanLiteral true)
      else let! y := asBooleanLiteral b in Ok (BooleanLiteral y))
    (AddRule Boolean AND (fun a b =>
      let! x := asBooleanLiteral a in
      if x then let! y := asBooleanLiteral b in Ok (BooleanLiteral y)
      else Ok (BooleanLiteral false))
    NewRules).

(** *** String *)

Definition String_numericConstructor : ConstructorFn :=
  fun obj => Ok (StringLiteral (Sprintf_v (Value obj))).

Definition String_Constructors : ConstructorMap :=
  AddConstructor Boolean String_numericConstructor
    (AddConstructor Float String_numericConstructor
      (AddConstructor Integer String_numericConstructor
        (AddConstructor Double String_numericConstructor
          (AddConstructor Number String_numericConstructor
            (AddConstructor String_ (fun obj => Ok obj) NewConstructorMap))))).

(** *** Number *)

Definition Number_from_Number : ConstructorFn := fun obj =>
  let val := Value obj in
  let val := match val with HInt64 intNum => HFloat64 (float64_of_int64 intNum) | _ => val end in
  let! f := asFloat64 val in Ok (NumberLiteral f).

Definition Number_Constructors : ConstructorMap :=
  AddConstructor Float (fun obj => let! f := asFloatLiteral obj in Ok (NumberLiteral f))
    (AddConstructor Integer
       (fun obj => let! i := asIntegerLiteral obj in Ok (NumberLiteral (float64_of_int64 i)))
      (AddConstructor Double (fun obj => let! f := asDoubleLiteral obj in Ok (NumberLiteral f))
        (AddConstructor Number Number_from_Number NewConstructorMap))).

(** *** Double: every constructor quantises *)

Definition Double_numericConstructor : ConstructorFn := fun obj =>
  let! f := asFloat64 (Value obj) in
  Ok (DoubleLiteral (math_Ceil (f * 100) / 100)%float).

Definition Double_Constructors : ConstructorMap :=
  AddConstructor Float Double_numericConstructor
    (AddConstructor Integer Double_numericConstructor
      (AddConstructor Double Double_numericConstructor
        (AddConstructor Number Double_numericConstructor NewConstructorMap))).

(** *** Float *)

Definition Float_Constructors : ConstructorMap :=
  AddConstructor Float (fun obj => let! f := asFloatLiteral obj in Ok (FloatLiteral f))
    (AddConstructor Integer
       (fun obj => let! i := asIntegerLiteral obj in Ok (FloatLiteral (float64_of_int64 i)))
      (AddConstructor Double (fun obj => let! f := asDoubleLiteral obj in Ok (FloatLiteral f))
        (AddConstructor Number
           (fun obj => let! f := asFloat64 (Value obj) in Ok (FloatLiteral f))
           NewConstructorMap))).

(** *** Integer *)

Definition Integer_Constructors : ConstructorMap :=
  AddConstructor Float
    (fun obj => let! f := asFloatLiteral obj in Ok (IntegerLiteral (int64_of_float64 f)))
    (AddConstructor Integer (fun obj => let! i := asIntegerLiteral obj in Ok (IntegerLiteral i))
      (AddConstructor Double
         (fun obj => let! f := asDoubleLiteral obj in Ok (IntegerLiteral (int64_of_float64 f)))
        (AddConstructor Number
           (fun obj => let! f := asFloat64 (Value obj) in Ok (IntegerLiteral (int64_of_float64 f)))
           NewConstructorMap))).

(** *** Numeric comparators and operators *)

(** [(Number{}).Constructors().Get(Number{})] *)
Definition numConstructor : option ConstructorFn :=
  ConstructorMap_Get Number_Constructors Number.

Definition numComparePredicate (cb : float -> float -> bool) : OperatorFn := fun a b =>
  let! na := call1 numConstructor a in
  let! nb := call1 numConstructor b in
  let! fa := asNumberLiteral na in
  let! fb := asNumberLiteral nb in
  Ok (BooleanLiteral (cb fa fb)).

Definition addNumCompareMap (rules : OperatorRulesMap) (class : Class) : OperatorRulesMap :=
  let rules := AddRule class EQUALS (numComparePredicate (fun a b => a =? b)%float) rules in
  let rules := AddRule class NOT_EQUALS (numComparePredicate (fun a b => negb (a =? b))%float) rules in
  let rules := AddRule class LESS (numComparePredicate (fun a b => a <? b)%float) rules in
  let rules := AddRule class GREATER (numComparePredicate (fun a b => b <? a)%float) rules in
  let rules := AddRule class LESS_EQUAL (numComparePredicate (fun a b => a <=? b)%float) rules in
  AddRule class GREATER_EQUAL (numComparePredicate (fun a b => b <=? a)%float) rules.

Definition numCompareMap : OperatorRulesMap :=
  let rules := NewRules in
  let rules := addNumCompareMap rules Number in
  let rules := addNumCompareMap rules Double in
  let rules := addNumCompareMap rules Integer in
  addNumCompareMap rules Float.

Definition numOperatorPredicate (cb : float -> float -> R ValueObject) : OperatorFn := fun a b =>
  let! na := call1 numConstructor a in
  let! nb := call1 numConstructor b in
  let! fa := asNumberLiteral na in
  let! fb := asNumberLiteral nb in
  cb fa fb.

Definition addNumOperatorMap (rules : OperatorRulesMap) (class : Class)
    (fn : option ConstructorFn) : OperatorRulesMap :=
  let rules := AddRule class ADD
    (numOperatorPredicate (fun a b => call1 fn (NumberLiteral (a + b)%float))) rules in
  let rules := AddRule class SUB
    (numOperatorPredicate (fun a b => call1 fn (NumberLiteral (a - b)%float))) rules in
  let rules := AddRule class MUL
    (numOperatorPredicate (fun a b => call1 fn (NumberLiteral (a * b)%float))) rules in
  let rules := AddRule class PWR
    (numOperatorPredicate (fun a b => call1 fn (NumberLiteral (math_Pow a b)))) rules in
  let rules := AddRule class QUO
    (numOperatorPredicate (fun a b => call1 fn (NumberLiteral (a / b)%float))) rules in
  AddRule class REM
    (numOperatorPredicate (fun a b => call1 fn (NumberLiteral (math_Mod a b)))) rules.

Definition numOperatorMap (fn : option ConstructorFn) : OperatorRulesMap :=
  let rules := NewRules in
  let rules := addNumOperatorMap rules Number fn in
  let rules := addNumOperatorMap rules Double fn in
  let rules := addNumOperatorMap rules Integer fn in
  addNumOperatorMap rules Float fn.

(** [c.ComparableRules()], for the classes that are a [ComparableClass]
    (of the classes declared elsewhere none is taken to be one). *)
Definition ComparableRules (c : Class) : option OperatorRulesMap :=
  match c with
  | Boolean => Some Boolean_ComparableRules
  | Number | Double | Float | Integer => Some numCompareMap
  | _ => None
  end.

(** [c.OperatorRules()], for the classes that are an [OperableClass]; the
    results flow through the class's own constructor from [Number]. *)
Definition OperatorRules (c : Class) : option OperatorRulesMap :=
  match c with
  | Number => Some (numOperatorMap (ConstructorMap_Get Number_Constructors Number))
  | Double => Some (numOperatorMap (ConstructorMap_Get Double_Constructors Number))
  | Float => Some (numOperatorMap (ConstructorMap_Get Float_Constructors Number))
  | Integer => Some (numOperatorMap (ConstructorMap_Get Integer_Constructors Number))
  | _ => None
  end.

End Kernel.

(** ** The syntax tree (language/nodes)

    The node types are declared elsewhere in the repository; each carries
    the fields the engine reads. Expressions and type expressions are opaque:
    the engine only hands them to the expression evaluator. Source positions
    are not kept. *)

Section Syntax.
Variables Expression TypeExpression : Type.

(** [nodes.DeclarationStatement{Name, Init}] *)
Inductive DeclarationStatement :=
| mkDeclarationStatement (Name : string) (Init : Expression).

(** [nodes.AssignmentExpression{Name: Selector{Members}, Operator, Init}] *)
Inductive AssignmentExpression :=
| mkAssignmentExpression (Members : list string) (Operator : Token) (Init : Expression).

(** The [Update] of a [ForCondition]: an expression, an assignment, or
    anything else (which both passes skip). *)
Inductive ForUpdate :=
| UpdateExpression (e : Expression)
| UpdateAssignment (a : AssignmentExpression)
| UpdateNone.

(** [expr.Condition] of a [ForStatement]. *)
Inductive ForClause :=
| ForCondition (Init : option DeclarationStatement) (Condition : Expression) (Update : ForUpdate)
| RangeCondition (Index Value : string) (Target : Expression)
| OtherClause.

Inductive Block :=
| mkBlock (Statements : list BlockStatement)
with BlockStatement :=
| mkBlockStatement (Init : Node)
with Node :=
| NExpression (e : Expression)
| NDeclarationStatement (d : DeclarationStatement)
| NAssignmentExpression (a : AssignmentExpression)
| NIfStatement (s : IfStatement)
| NWhileStatement (s : WhileStatement)
| NForStatement (s : ForStatement)
| NContinueStatement
| NBreakStatement
| NSwitchBlock (s : SwitchBlock)
| NGuardStatement (Init : Expression)
| NReturnStatement (Init : Expression)
| NThrowStatement (Init : Expression)
| NOther (typeName : string)
with IfStatement :=
| mkIfStatement (Condition : Expression) (Body : Block) (Alternate : IfAlternate)
with IfAlternate :=
| AlternateIf (alt : IfStatement)
| AlternateBlock (alt : Block)
| AlternateNone
with WhileStatement :=
| mkWhileStatement (Condition : Expression) (Body : Block)
with ForStatement :=
| mkForStatement (Condition : ForClause) (Body : Block)
with SwitchBlock :=
| mkSwitchBlock (Target : Expression) (Statements : list CaseBlock)
with CaseBlock :=
| mkCaseBlock (IsDefault : bool) (Condition : option Expression) (Body : Block).

Definition Statements (b : Block) : list BlockStatement :=
  match b with mkBlock l => l end.
Definition stmtInit (s : BlockStatement) : Node :=
  match s with mkBlockStatement n => n end.

(** Go's [%T] of a statement node. *)
Definition nodeTypeName (n : Node) : string :=
  match n with
  | NExpression _ => "nodes.Expression"
  | NDeclarationStatement _ => "nodes.DeclarationStatement"
  | NAssignmentExpression _ => "nodes.AssignmentExpression"
  | NIfStatement _ => "nodes.IfStatement"
  | NWhileStatement _ => "nodes.WhileStatement"
  | NForStatement _ => "nodes.ForStatement"
  | NContinueStatement => "nodes.ContinueStatement"
  | NBreakStatement => "nodes.BreakStatement"
  | NSwitchBlock _ => "nodes.SwitchBlock"
  | NGuardStatement _ => "nodes.GuardStatement"
  | NReturnStatement _ => "nodes.ReturnStatement"
  | NThrowStatement _ => "nodes.ThrowStatement"
  | NOther t => t
  end.

(** An item of a function's argument list. *)
Inductive ArgumentNode :=
| ArgumentItem (Key : string) (Init : TypeExpression)
| ArgumentObject (Items : list (string * TypeExpression)).

(** [nodes.FunctionBlock{Arguments: ArgumentList{Items}, ReturnType, Body}];
    a nil [Items] and an empty one behave alike. *)
Record FunctionBlock := mkFunctionBlock {
  Arguments : list ArgumentNode;
  ReturnType : option TypeExpression;
  Body : Block;
}.

(** ** Objects, functions and the symbol table

    A function value holds a Go closure as its handler. The closures of
    the program are enumerated: the two methods of a string, the [now] of
    [Date] and [DateTime], and the closure [ResolveFunctionBlock] builds,
    which captures the defining table, the function node and the function
    being built (of which it reads [returns]). *)

Inductive Object :=
| OClass (c : Class)
| OValue (v : ValueObject)
| OFunction (f : Function)
with Function :=
| mkFunction (arguments : list Class) (returns : option Class) (handler : option fnHandler)
with fnHandler :=
| lowerHandler (sl : string)
| upperHandler (sl : string)
| DateNowHandler
| DateTimeNowHandler
| blockHandler (st : SymbolTable) (node : FunctionBlock) (fn_returns : option Class)
with SymbolTable :=
| mkSymbolTable (local immutable : gmap string Object).

Definition arguments (fn : Function) : list Class :=
  match fn with mkFunction a _ _ => a end.
Definition returns (fn : Function) : option Class :=
  match fn with mkFunction _ r _ => r end.
Definition handler (fn : Function) : option fnHandler :=
  match fn with mkFunction _ _ h => h end.
Definition local (st : SymbolTable) : gmap string Object :=
  match st with mkSymbolTable l _ => l end.
Definition immutable (st : SymbolTable) : gmap string Object :=
  match st with mkSymbolTable _ i => i end.

(** [FunctionOptions] and [NewFunction] *)
Record FunctionOptions := mkFunctionOptions {
  opt_Arguments : list Class;
  opt_Returns : option Class;
  opt_Handler : option fnHandler;
}.
Definition NewFunction (opts : FunctionOptions) : Function :=
  mkFunction (opt_Arguments opts) (opt_Returns opts) (opt_Handler opts).

(** The zero value [Function{}]. *)
Definition zeroFunction : Function := mkFunction [] None None.

(** [m[k] = o] on a Go map of interfaces; storing [nil] and having no entry
    read alike. *)
Definition mapSet (k : string) (o : option Object) (m : gmap string Object) : gmap string Object :=
  match o with
  | Some x => <[k := x]> m
  | None => delete k m
  end.
Definition setLocal (k : string) (o : option Object) (st : SymbolTable) : SymbolTable :=
  mkSymbolTable (mapSet k o (local st)) (immutable st).
Definition setImmutable (k : string) (o : option Object) (st : SymbolTable) : SymbolTable :=
  mkSymbolTable (local st) (mapSet k o (immutable st)).

(** Modelled from the spec: [Clone] is declared elsewhere in the
    repository. It is a "shallow copy of both maps; subsequent writes on the
    child must not mutate parent maps". With maps as values the copy is the
    table itself. *)
Definition Clone (st : SymbolTable) : SymbolTable := st.

(** *** Dynamic type tests on an [Object]

    [NilLiteral] is at once a class and a value ([nl.Class()] is [nl]), so
    both views of it pass both tests. A [Function] has the methods [Get],
    [Arguments], [Returns] and [Call] only, so it is neither. *)
Definition asValueObject (o : option Object) : option ValueObject :=
  match o with
  | Some (OValue v) => Some v
  | Some (OClass Nil) => Some NilLiteral
  | _ => None
  end.
Definition asClass (o : option Object) : option Class :=
  match o with
  | Some (OClass c) => Some c
  | Some (OValue NilLiteral) => Some Nil
  | _ => None
  end.
Definition asFunction (o : option Object) : option Function :=
  match o with
  | Some (OFunction f) => Some f
  | _ => None
  end.
Definition ofValue (v : option ValueObject) : option Object := OValue <$> v.
Definition ofClass (c : option Class) : option Object := OClass <$> c.

(** ** The expression evaluator

    [ResolveValueObject], [ResolveExpression], [ValidateExpression] and
    [ResolveTypeExpression] are declared elsewhere in the repository, and so
    are the constructors and the members of [GenericObject], [Type],
    [Iterable] and [Error]. They are parameters: every property below holds
    for any choice of them. They read the table and do not write it. A
    result of [None] is Go's [nil]. *)
Record Evaluator := mkEvaluator {
  ResolveValueObject : SymbolTable -> Expression -> R (option ValueObject);
  ResolveExpression : SymbolTable -> Expression -> R (option Object);
  ValidateExpression : SymbolTable -> Expression -> R (option Class);
  ResolveTypeExpression : SymbolTable -> TypeExpression -> R Class;
  externConstructors : Class -> ConstructorMap;
  externClassGet : Class -> string -> option Object;
  externValueGet : ValueObject -> string -> option Object;
  externSet : ValueObject -> string -> ValueObject -> option error;
}.

End Syntax.

(** The node and object constructors find their type parameters from the
    context. *)
Arguments mkDeclarationStatement {Expression}.
Arguments mkAssignmentExpression {Expression}.
Arguments UpdateExpression {Expression}.
Arguments UpdateAssignment {Expression}.
Arguments UpdateNone {Expression}.
Arguments ForCondition {Expression}.
Arguments RangeCondition {Expression}.
Arguments OtherClause {Expression}.
Arguments mkBlock {Expression}.
Arguments mkBlockStatement {Expression}.
Arguments NExpression {Expression}.
Arguments NDeclarationStatement {Expression}.
Arguments NAssignmentExpression {Expression}.
Arguments NIfStatement {Expression}.
Arguments NWhileStatement {Expression}.
Arguments NForStatement {Expression}.
Arguments NContinueStatement {Expression}.
Arguments NBreakStatement {Expression}.
Arguments NSwitchBlock {Expression}.
Arguments NGuardStatement {Expression}.
Arguments NReturnStatement {Expression}.
Arguments NThrowStatement {Expression}.
Arguments NOther {Expression}.
Arguments mkIfStatement {Expression}.
Arguments AlternateIf {Expression}.
Arguments AlternateBlock {Expression}.
Arguments AlternateNone {Expression}.
Arguments mkWhileStatement {Expression}.
Arguments mkForStatement {Expression}.
Arguments mkSwitchBlock {Expression}.
Arguments mkCaseBlock {Expression}.
Arguments Statements {Expression}.
Arguments stmtInit {Expression}.
Arguments nodeTypeName {Expression}.
Arguments ArgumentItem {TypeExpression}.
Arguments ArgumentObject {TypeExpression}.
Arguments mkFunctionBlock {Expression TypeExpression}.
Arguments Arguments {Expression TypeExpression}.
Arguments ReturnType {Expression TypeExpression}.
Arguments Body {Expression TypeExpression}.
Arguments OClass {Expression TypeExpression}.
Arguments OValue {Expression TypeExpression}.
Arguments OFunction {Expression TypeExpression}.
Arguments mkFunction {Expression TypeExpression}.
Arguments lowerHandler {Expression TypeExpression}.
Arguments upperHandler {Expression TypeExpression}.
Arguments DateNowHandler {Expression TypeExpression}.
Arguments DateTimeNowHandler {Expression TypeExpression}.
Arguments blockHandler {Expression TypeExpression}.
Arguments mkSymbolTable {Expression TypeExpression}.
Arguments arguments {Expression TypeExpression}.
Arguments returns {Expression TypeExpression}.
Arguments handler {Expression TypeExpression}.
Arguments local {Expression TypeExpression}.
Arguments immutable {Expression TypeExpression}.
Arguments mkFunctionOptions {Expression TypeExpression}.
Arguments opt_Arguments {Expression TypeExpression}.
Arguments opt_Returns {Expression TypeExpression}.
Arguments opt_Handler {Expression TypeExpression}.
Arguments NewFunction {Expression TypeExpression}.
Arguments zeroFunction {Expression TypeExpression}.
Arguments mapSet {Expression TypeExpression}.
Arguments setLocal {Expression TypeExpression}.
Arguments setImmutable {Expression TypeExpression}.
Arguments Clone {Expression TypeExpression}.
Arguments asValueObject {Expression TypeExpression}.
Arguments asClass {Expression TypeExpression}.
Arguments asFunction {Expression TypeExpression}.
Arguments ofValue {Expression TypeExpression}.
Arguments ofClass {Expression TypeExpression}.
Arguments mkEvaluator {Expression TypeExpression}.
Arguments ResolveValueObject {Expression TypeExpression}.
Arguments ResolveExpression {Expression TypeExpression}.
Arguments ValidateExpression {Expression TypeExpression}.
Arguments ResolveTypeExpression {Expression TypeExpression}.
Arguments externConstructors {Expression TypeExpression}.
Arguments externClassGet {Expression TypeExpression}.
Arguments externValueGet {Expression TypeExpression}.
Arguments externSet {Expression TypeExpression}.

(** ** An evaluator for the examples

    The examples below need expressions to evaluate. They use the two
    simplest ones: a literal, which evaluates to its value and validates to
    its class, and an identifier, which is looked up in [local]. A type
    expression is the class it names. The classes declared elsewhere get no
    constructors and no members. *)

Inductive ExampleExpression :=
| Lit (v : ValueObject)
| Ident (name : string).

Definition exampleEvaluator : Evaluator ExampleExpression Class := {|
  ResolveValueObject st e :=
    match e with
    | Lit v => Ok (Some v)
    | Ident name =>
        match asValueObject (local st !! name) with
        | Some v => Ok (Some v)
        | None => Fail (NodeError (name +:+ " is not a value"))
        end
    end;
  ResolveExpression st e :=
    match e with
    | Lit v => Ok (Some (OValue v))
    | Ident name =>
        match local st !! name with
        | Some o => Ok (Some o)
        | None => Fail (NodeError (name +:+ " is not defined"))
        end
    end;
  ValidateExpression st e :=
    match e with
    | Lit v => Ok (Some (Class_of v))
    | Ident name =>
        match asClass (local st !! name) with
        | Some c => Ok (Some c)
        | None => Fail (NodeError (name +:+ " is not defined"))
        end
    end;
  ResolveTypeExpression st t := Ok t;
  externConstructors _ := ∅;
  externClassGet _ _ := None;
  externValueGet _ _ := None;
  externSet _ _ _ := None;
|}.

(** [math.Ceil] on binary64, computed on the mantissa and the exponent. *)
Definition exampleCeil (f : float) : float :=
  match Prim2SF f with
  | S754_finite s m e =>
      if 0 <=? e then f
      else
        let q := Z.pos m / 2 ^ (- e) in
        let r := Z.pos m mod 2 ^ (- e) in
        if s then (- PrimFloat.of_uint63 (Uint63.of_Z q))%float
        else PrimFloat.of_uint63 (Uint63.of_Z (if r =? 0 then q else q + 1))
  | _ => f
  end.

Fixpoint mapAscii (f : nat -> nat) (s : string) : string :=
  match s with
  | EmptyString => EmptyString
  | String.String c rest =>
      String.String (Ascii.ascii_of_nat (f (Ascii.nat_of_ascii c))) (mapAscii f rest)
  end.

(** The library functions of the examples. [math.Pow], [math.Mod] and the
    float case of [%v] are not reached by any example and are fixed
    arbitrarily; the case mappings are those of ASCII. *)
#[global] Instance exampleLib : GoLib := {|
  math_Ceil := exampleCeil;
  math_Pow _ _ := PrimFloat.nan;
  math_Mod _ _ := PrimFloat.nan;
  Sprintf_v x :=
    match x with
    | HNil => "<nil>"
    | HBool b => if b then "true" else "false"
    | HString s => s
    | HFloat64 _ => "?"
    | HInt64 z => pretty z
    end;
  strings_ToLower :=
    mapAscii (fun n => if ((65 <=? n) && (n <=? 90))%nat then (n + 32)%nat else n);
  strings_ToUpper :=
    mapAscii (fun n => if ((97 <=? n) && (n <=? 122))%nat then (n - 32)%nat else n);
|}.

Definition emptyTable : SymbolTable ExampleExpression Class := mkSymbolTable ∅ ∅.

Definition stmt (n : Node ExampleExpression) : BlockStatement ExampleExpression :=
  mkBlockStatement n.
Definition int (i : Z) : ExampleExpression := Lit (IntegerLiteral i).
(** [let name = init] *)
Definition declare (name : string) (init : ExampleExpression) : BlockStatement ExampleExpression :=
  stmt (NDeclarationStatement (mkDeclarationStatement name init)).

(** The table in which [x] is bound to the value [v]. *)
Definition tableWith (x : string) (v : ValueObject) : SymbolTable ExampleExpression Class :=
  setLocal x (Some (OValue v)) emptyTable.
(** The table of validation, in which [x] is bound to the class [c]. *)
Definition tableWithClass (x : string) (c : Class) : SymbolTable ExampleExpression Class :=
  setLocal x (Some (OClass c)) emptyTable.

(** [x = 1] and [x += 1] *)
Definition assignOne : AssignmentExpression ExampleExpression :=
  mkAssignmentExpression ["x"] ASSIGN (int 1).
Definition addAssignOne : AssignmentExpression ExampleExpression :=
  mkAssignmentExpression ["x"] ADD_ASSIGN (int 1).

(** [while true { continue }] *)
Definition whileContinue : BlockStatement ExampleExpression :=
  stmt (NWhileStatement (mkWhileStatement (Lit (BooleanLiteral true))
          (mkBlock [stmt NContinueStatement]))).

(** [fn(): Integer { if true { return 1 } }] *)
Definition ifWithoutElse : FunctionBlock ExampleExpression Class := {|
  Arguments := [];
  ReturnType := Some Integer;
  Body := mkBlock [stmt (NIfStatement
            (mkIfStatement (Lit (BooleanLiteral true))
               (mkBlock [stmt (NReturnStatement (int 1))]) AlternateNone))];
|}.

(** [fn() { return 1 }], with no return type. *)
Definition returnsOne : FunctionBlock ExampleExpression Class := {|
  Arguments := [];
  ReturnType := None;
  Body := mkBlock [stmt (NReturnStatement (int 1))];
|}.

(** [switch 1 { case 1: let a = 1; case 1: let b = 2; default: let c = 3 }] *)
Definition caseA : CaseBlock ExampleExpression :=
  mkCaseBlock false (Some (int 1)) (mkBlock [declare "a" (int 1)]).
Definition caseB : CaseBlock ExampleExpression :=
  mkCaseBlock false (Some (int 1)) (mkBlock [declare "b" (int 2)]).
Definition caseDefault : CaseBlock ExampleExpression :=
  mkCaseBlock true None (mkBlock [declare "c" (int 3)]).
Definition switchTwice : SwitchBlock ExampleExpression :=
  mkSwitchBlock (int 1) [caseA; caseB; caseDefault].


(** [fn(n: Integer): String { return n }] and the function it compiles to
    in the empty table. *)
Definition returnsText : FunctionBlock ExampleExpression Class := {|
  Arguments := [ArgumentItem "n" Integer];
  ReturnType := Some String_;
  Body := mkBlock [stmt (NReturnStatement (Ident "n"))];
|}.
Definition textFn : Function ExampleExpression Class :=
  mkFunction [Integer] (Some String_) (Some (blockHandler emptyTable returnsText (Some String_))).

(** The table of a method body, in which [self] is held in [immutable]. *)
Definition tableWithSelf (v : ValueObject) : SymbolTable ExampleExpression Class :=
  setImmutable "self" (Some (OValue v)) emptyTable.

(** [for let i = 0; true; { continue }] *)
Definition forContinue : ForStatement ExampleExpression :=
  mkForStatement
    (ForCondition (Some (mkDeclarationStatement "i" (int 0))) (Lit (BooleanLiteral true))
       UpdateNone)
    (mkBlock [stmt NContinueStatement]).

(** [if true { break }] and [while true { if true { break } }] *)
Definition ifBreak : IfStatement ExampleExpression :=
  mkIfStatement (Lit (BooleanLiteral true)) (mkBlock [stmt NBreakStatement]) AlternateNone.
Definition whileIfBreak : WhileStatement ExampleExpression :=
  mkWhileStatement (Lit (BooleanLiteral true)) (mkBlock [stmt (NIfStatement ifBreak)]).

(** [switch 1 { case 1: return 1; default: return 2 }] *)
Definition caseReturn : CaseBlock ExampleExpression :=
  mkCaseBlock false (Some (int 1)) (mkBlock [stmt (NReturnStatement (int 1))]).
Definition defaultReturn : CaseBlock ExampleExpression :=
  mkCaseBlock true None (mkBlock [stmt (NReturnStatement (int 2))]).

(** An evaluator in which the one expression evaluates to nil, as a call
    of a function without a return type does. *)
Definition nilEvaluator : Evaluator unit Class := {|
  ResolveValueObject _ _ := Ok None;
  ResolveExpression _ _ := Ok None;
  ValidateExpression _ _ := Ok None;
  ResolveTypeExpression _ t := Ok t;
  externConstructors _ := ∅;
  externClassGet _ _ := None;
  externValueGet _ _ := None;
  externSet _ _ _ := None;
|}.

(** [{ while false { return 1 } }] *)
Definition whileFalseReturn : Block ExampleExpression :=
  mkBlock [stmt (NWhileStatement
             (mkWhileStatement (Lit (BooleanLiteral false))
                (mkBlock [stmt (NReturnStatement (int 1))])))].

(** [fn(c: Boolean): Integer { if c { return 1 } }] *)
Definition ifArgumentWithoutElse : FunctionBlock ExampleExpression Class := {|
  Arguments := [ArgumentItem "c" Boolean];
  ReturnType := Some Integer;
  Body := mkBlock [stmt (NIfStatement
            (mkIfStatement (Ident "c")
               (mkBlock [stmt (NReturnStatement (int 1))]) AlternateNone))];
|}.

(** [switch 1 { case x: let a = 1; case x: let b = 2; default: let c = 3 }] *)
Definition caseNameA : CaseBlock ExampleExpression :=
  mkCaseBlock false (Some (Ident "x")) (mkBlock [declare "a" (int 1)]).
Definition caseNameB : CaseBlock ExampleExpression :=
  mkCaseBlock false (Some (Ident "x")) (mkBlock [declare "b" (int 2)]).
Definition switchOnName : SwitchBlock ExampleExpression :=
  mkSwitchBlock (int 1) [caseNameA; caseNameB; caseDefault].

(** [switch 1 { case 1: return 7; case "s": }] *)
Definition caseReturnSeven : CaseBlock ExampleExpression :=
  mkCaseBlock false (Some (int 1)) (mkBlock [stmt (NReturnStatement (int 7))]).
Definition caseText : CaseBlock ExampleExpression :=
  mkCaseBlock false (Some (Lit (StringLiteral "s"))) (mkBlock []).
Definition switchReturning : SwitchBlock ExampleExpression :=
  mkSwitchBlock (int 1) [caseReturnSeven; caseText].

(** ** The engine *)

Section Engine.
Context {lib : GoLib} {Expression TypeExpression : Type}.
Variable E : Evaluator Expression TypeExpression.

Local Abbreviation SymbolTable := (SymbolTable Expression TypeExpression).
Local Abbreviation Object := (Object Expression TypeExpression).
Local Abbreviation Function := (Function Expression TypeExpression).
Local Abbreviation Block := (Block Expression).
Local Abbreviation BlockStatement := (BlockStatement Expression).
Local Abbreviation Node := (Node Expression).
Local Abbreviation IfStatement := (IfStatement Expression).
Local Abbreviation WhileStatement := (WhileStatement Expression).
Local Abbreviation ForStatement := (ForStatement Expression).
Local Abbreviation SwitchBlock := (SwitchBlock Expression).
Local Abbreviation CaseBlock := (CaseBlock Expression).
Local Abbreviation ForClause := (ForClause Expression).
Local Abbreviation ForUpdate := (ForUpdate Expression).
Local Abbreviation DeclarationStatement := (DeclarationStatement Expression).
Local Abbreviation AssignmentExpression := (AssignmentExpression Expression).
Local Abbreviation ArgumentNode := (ArgumentNode TypeExpression).
Local Abbreviation FunctionBlock := (FunctionBlock Expression TypeExpression).

(** *** [Get] and [Set] *)

(** The map literal of [StringLiteral.Get]. *)
Definition StringLiteral_methods (sl : string) : gmap string Function :=
  <["upper" := NewFunction {| opt_Arguments := []; opt_Returns := Some String_;
                              opt_Handler := Some (upperHandler sl) |}]>
    (<["lower" := NewFunction {| opt_Arguments := []; opt_Returns := Some String_;
                                 opt_Handler := Some (lowerHandler sl) |}]> ∅).

(** [sl.Get(key)]: indexing a [map[string]Function] yields the zero
    [Function] for a missing key, and the result is returned as an
    [Object]. *)
Definition StringLiteral_Get (sl : string) (key : string) : option Object :=
  Some (OFunction (default zeroFunction (StringLiteral_methods sl !! key))).

Definition Value_Get (v : ValueObject) (key : string) : option Object :=
  match v with
  | StringLiteral sl => StringLiteral_Get sl key
  | Iterable _ _ | Error _ => externValueGet E v key
  | _ => None
  end.

Definition Class_Get (c : Class) (key : string) : option Object :=
  match c with
  | Date =>
      if decide (key = "now")
      then Some (OFunction (NewFunction {| opt_Arguments := []; opt_Returns := Some Date;
                                           opt_Handler := Some DateNowHandler |}))
      else None
  | DateTime =>
      if decide (key = "now")
      then Some (OFunction (NewFunction {| opt_Arguments := []; opt_Returns := Some DateTime;
                                           opt_Handler := Some DateTimeNowHandler |}))
      else None
  | GenericObject | Type_ _ | Iterable_ _ | Error_ => externClassGet E c key
  | _ => None
  end.

(** [o.Get(key)] by dynamic dispatch; a [Function] has no members. *)
Definition Object_Get (o : Object) (key : string) : option Object :=
  match o with
  | OClass c => Class_Get c key
  | OValue v => Value_Get v key
  | OFunction _ => None
  end.

(** [v.Set(key, new)]: the literals either refuse or do nothing. *)
Definition Value_Set (v : ValueObject) (key : string) (new : ValueObject) : option error :=
  match v with
  | NilLiteral | BooleanLiteral _ =>
      Some (Errorf ("cannot set property " +:+ key +:+ " of " +:+ ClassName (Class_of v)))
  | Iterable _ _ | Error _ => externSet E v key new
  | _ => None
  end.

(** [err.Error()], without the position a [NodeError] would print first. *)
Definition error_string (e : error) : string :=
  match e with
  | Errorf m => m
  | NodeError m => m
  | NotIterableError => "not iterable"
  | InoperableSwitchTargetError => "inoperable switch target"
  | Thrown (Error m) => m
  | Thrown _ => "error"
  end.

(** [if err != nil { return NodeError(node, err.Error()) }] *)
Definition wrapNodeError {A} (r : R A) : R A :=
  match r with
  | Fail e => Fail (NodeError (error_string e))
  | _ => r
  end.

Definition ofError (e : option error) : R unit :=
  match e with
  | Some err => Fail err
  | None => Ok tt
  end.

(** [c.Constructors()]; [Nil], [Date] and [DateTime] return the empty map. *)
Definition Constructors (c : Class) : ConstructorMap :=
  match c with
  | Nil => NewConstructorMap
  | Boolean => Boolean_Constructors
  | String_ => String_Constructors
  | Number => Number_Constructors
  | Double => Double_Constructors
  | Float => Float_Constructors
  | Integer => Integer_Constructors
  | Date => NewConstructorMap
  | DateTime => NewConstructorMap
  | GenericObject | Type_ _ | Iterable_ _ | Error_ => externConstructors E c
  end.

(** *** Coercion and dispatch *)

(** Modelled from the spec: [Construct] is declared elsewhere in the
    repository. "looks up [targetClass.Constructors()[v.Class()]]; if
    missing, error [cannot construct <target> from <source>]". Asking a nil
    value for its class panics. *)
Definition Construct (target : Class) (v : option ValueObject) : R ValueObject :=
  match v with
  | None => Panic "invalid memory address or nil pointer dereference"
  | Some v =>
      match ConstructorMap_Get (Constructors target) (Class_of v) with
      | Some fn => fn v
      | None => Fail (Errorf ("cannot construct " +:+ ClassName target +:+ " from "
                                +:+ ClassName (Class_of v)))
      end
  end.

(** Modelled from the spec: [ShouldConstruct(target, source)] is declared
    elsewhere in the repository. "static form; succeeds iff the same
    lookup would succeed". *)
Definition ShouldConstruct (target source : option Class) : R unit :=
  match target, source with
  | Some target, Some source =>
      match ConstructorMap_Get (Constructors target) source with
      | Some _ => Ok tt
      | None => Fail (Errorf ("cannot construct " +:+ ClassName target +:+ " from "
                                +:+ ClassName source))
      end
  | _, _ => Panic "invalid memory address or nil pointer dereference"
  end.

(** The rule of class [c] registered for [(other, op)], in the operator
    rules or in the comparator rules of [c]. *)
Definition operatorRule (c other : Class) (op : Token) : option OperatorFn :=
  OperatorRules c ≫= (fun rules => Rules_Get rules other op).
Definition comparatorRule (c other : Class) (op : Token) : option OperatorFn :=
  ComparableRules c ≫= (fun rules => Rules_Get rules other op).
Definition findRule (c other : Class) (op : Token) : option OperatorFn :=
  match operatorRule c other op with
  | Some fn => Some fn
  | None => comparatorRule c other op
  end.

Definition isOperableClass (c : Class) : bool := bool_decide (is_Some (OperatorRules c)).

(** Modelled from the spec: [Operate] is declared elsewhere in the
    repository. "requires [a.Class()] is OperableClass; looks up
    [(b.Class(), op)]", in the registries of [a]'s class. *)
Definition Operate (op : Token) (a b : option ValueObject) : R ValueObject :=
  match a, b with
  | Some a, Some b =>
      if isOperableClass (Class_of a) then
        match findRule (Class_of a) (Class_of b) op with
        | Some fn => fn a b
        | None => Fail (Errorf ("cannot operate " +:+ ClassName (Class_of a) +:+ " with "
                                  +:+ ClassName (Class_of b)))
        end
      else Fail (Errorf ("cannot operate on non-operable class " +:+ ClassName (Class_of a)))
  | _, _ => Panic "invalid memory address or nil pointer dereference"
  end.

(** Modelled from the spec: [ShouldOperate] is declared elsewhere in the
    repository. "the static twin over Classes (using class-level
    ComparableRules/OperatorRules)". *)
Definition ShouldOperate (op : Token) (a b : option Class) : R unit :=
  match a, b with
  | Some a, Some b =>
      match findRule a b op with
      | Some _ => Ok tt
      | None => Fail (Errorf ("cannot operate " +:+ ClassName a +:+ " with " +:+ ClassName b))
      end
  | _, _ => Panic "invalid memory address or nil pointer dereference"
  end.

(** *** The table-passing monad *)

Definition St (A : Type) : Type := SymbolTable -> R A * SymbolTable.

Definition ret {A} (a : A) : St A := fun st => (Ok a, st).
Definition liftR {A} (r : R A) : St A := fun st => (r, st).
Definition failS {A} (e : error) : St A := liftR (Fail e).
Definition bindS {A B} (m : St A) (k : A -> St B) : St B := fun st =>
  match m st with
  | (Ok a, st') => k a st'
  | (Fail e, st') => (Fail e, st')
  | (Panic msg, st') => (Panic msg, st')
  | (OutOfFuel, st') => (OutOfFuel, st')
  end.
Definition getS : St SymbolTable := fun st => (Ok st, st).
Definition modifyS (f : SymbolTable -> SymbolTable) : St unit := fun st => (Ok tt, f st).
(** Run [m] on a clone of the table and drop the clone. *)
Definition onClone {A} (m : St A) : St A := fun st => (fst (m (Clone st)), st).

Notation "'let*' x ':=' m 'in' k" := (bindS m (fun x => k))
  (at level 10, x pattern, m at level 200, k at level 200,
   format "'[' 'let*'  x  ':='  m  'in' ']' '//' k").

(** Go's [%T] of an object. *)
Definition goTypeName (o : Object) : string :=
  match o with
  | OClass c => "build." +:+ ClassName c
  | OValue v => "build." +:+ ClassName (Class_of v) +:+ "Literal"
  | OFunction _ => "build.Function"
  end.

(** One step of a selector walk, as [ValidateAssignmentExpression] writes
    it: an [ObjectClass] is asked for the field, then for a static member;
    anything else is asked through [Get]; asking [nil] panics. *)
Definition selectMember (currentObject : option Object) (member : string) : R (option Object) :=
  match currentObject with
  | Some (OClass (Type_ fields)) =>
      match fields !! member with
      | Some field => Ok (Some (OClass field))
      | None =>
          match Class_Get (Type_ fields) member with
          | Some staticObject => Ok (Some staticObject)
          | None => Fail (NodeError (ClassName (Type_ fields) +:+ " does not have field " +:+ member))
          end
      end
  | Some object =>
      match Object_Get object member with
      | Some next => Ok (Some next)
      | None =>
          match asValueObject (Some object) with
          | Some v => Fail (NodeError (ClassName (Class_of v) +:+ " has no member " +:+ member))
          | None => Fail (NodeError (goTypeName object +:+ " has no member " +:+ member))
          end
      end
  | None => Panic "invalid memory address or nil pointer dereference"
  end.

Fixpoint selectMembers (currentObject : option Object) (members : list string)
    : R (option Object) :=
  match members with
  | [] => Ok currentObject
  | member :: rest =>
      let! next := selectMember currentObject member in
      selectMembers next rest
  end.

(** Modelled from the spec: [ResolveSelector] is declared elsewhere in the
    repository. "for [n0, n1, ..., nk], take [local[n0]] and successively
    follow Get/Fields, surfacing `X has no member Y` errors". *)
Definition ResolveSelector (st : SymbolTable) (Members : list string) : R (option Object) :=
  match Members with
  | [] => Panic "index out of range [0] with length 0"
  | n0 :: rest => selectMembers (local st !! n0) rest
  end.

(** *** Function arguments *)

Definition isGenericObject (c : Class) : bool :=
  match c with GenericObject => true | _ => false end.

Definition arityError (want got : nat) : error :=
  Errorf ("expected " +:+ pretty want +:+ " arguments, got " +:+ pretty got).

Fixpoint constructArguments (methodArgs : list Class) (args : list (option ValueObject))
    : R (list (option ValueObject)) :=
  match args, methodArgs with
  | [], _ => Ok []
  | arg :: args', argClass :: methodArgs' =>
      let! arg' := (if isGenericObject argClass then Ok arg
                    else let! v := Construct argClass arg in Ok (Some v)) in
      let! rest := constructArguments methodArgs' args' in
      Ok (arg' :: rest)
  | _ :: _, [] => Panic "index out of range"
  end.

Definition ResolveMethodArguments (method : Function) (args : list (option ValueObject))
    : R (list (option ValueObject)) :=
  let methodArgs := arguments method in
  if negb (length args =? length methodArgs)%nat
  then Fail (arityError (length methodArgs) (length args))
  else constructArguments methodArgs args.

Fixpoint shouldConstructArguments (methodArgs : list Class) (args : list (option Class))
    : R unit :=
  match args, methodArgs with
  | [], _ => Ok tt
  | arg :: args', argClass :: methodArgs' =>
      let! _ := (if isGenericObject argClass then Ok tt
                 else ShouldConstruct (Some argClass) arg) in
      shouldConstructArguments methodArgs' args'
  | _ :: _, [] => Panic "index out of range"
  end.

Definition ValidateMethodArguments (method : Function) (args : list (option Class)) : R unit :=
  let methodArgs := arguments method in
  if negb (length args =? length methodArgs)%nat
  then Fail (arityError (length methodArgs) (length args))
  else shouldConstructArguments methodArgs args.

(** The inner loop of [ResolveArgumentList] over a destructured argument. *)
Fixpoint resolveArgumentObject (items : list (string * TypeExpression))
    (fields : gmap string Class) : St (gmap string Class) :=
  match items with
  | [] => ret fields
  | (Key, Init) :: rest =>
      let* st := getS in
      let* obj := liftR (ResolveTypeExpression E st Init) in
      let* _ := modifyS (setLocal Key (Some (OClass obj))) in
      resolveArgumentObject rest (<[Key := obj]> fields)
  end.

Fixpoint ResolveArgumentList (Items : list ArgumentNode) : St (list Class) :=
  match Items with
  | [] => ret []
  | item :: rest =>
      let* arg :=
        match item with
        | ArgumentItem Key Init =>
            let* st := getS in
            let* obj := liftR (ResolveTypeExpression E st Init) in
            let* _ := modifyS (setLocal Key (Some (OClass obj))) in
            ret obj
        | ArgumentObject items =>
            let* fields := resolveArgumentObject items ∅ in
            ret (Type_ fields)
        end in
      let* args := ResolveArgumentList rest in
      ret (arg :: args)
  end.

Fixpoint applyArgumentObject (items : list (string * TypeExpression))
    (arg : option ValueObject) : St unit :=
  match items with
  | [] => ret tt
  | (Key, _) :: rest =>
      match arg with
      | None => liftR (Panic "invalid memory address or nil pointer dereference")
      | Some v =>
          match Value_Get v Key with
          | None => failS (NodeError ("object does not have property " +:+ Key))
          | Some propObject =>
              let* _ := modifyS (setLocal Key (Some propObject)) in
              applyArgumentObject rest arg
          end
      end
  end.

(** [ApplyArgumentList]; [idx] is the position of the first of [Items] in
    the argument list of the node. *)
Fixpoint ApplyArgumentList (Items : list ArgumentNode) (idx : nat)
    (args : list (option ValueObject)) : St unit :=
  match Items with
  | [] => ret tt
  | item :: rest =>
      let* _ :=
        match item with
        | ArgumentItem Key _ =>
            match args !! idx with
            | Some arg => modifyS (setLocal Key (ofValue arg))
            | None => liftR (Panic "index out of range")
            end
        | ArgumentObject items =>
            match items with
            | [] => ret tt
            | _ :: _ =>
                match args !! idx with
                | Some arg => applyArgumentObject items arg
                | None => liftR (Panic "index out of range")
                end
            end
        end in
      ApplyArgumentList rest (S idx) args
  end.

(** *** Declarations *)

Definition ResolveDeclarationStatement (expr : DeclarationStatement) (shouldEvaluate : bool)
    : St unit :=
  match expr with
  | mkDeclarationStatement Name Init =>
      let* st := getS in
      if bool_decide (is_Some (immutable st !! Name))
      then failS (NodeError ("cannot reassign immutable variable " +:+ Name))
      else if bool_decide (is_Some (local st !! Name))
      then failS (NodeError ("cannot redeclare variable " +:+ Name))
      else if shouldEvaluate then
        let* obj := liftR (ResolveValueObject E st Init) in
        modifyS (setLocal Name (ofValue obj))
      else
        let* obj := liftR (ValidateExpression E st Init) in
        modifyS (setLocal Name (ofClass obj))
  end.

(** *** Assignments *)

Definition getEffectOperator (token : Token) : Token :=
  match token with
  | ADD_ASSIGN | INC => ADD
  | SUB_ASSIGN | DEC => SUB
  | MUL_ASSIGN => MUL
  | PWR_ASSIGN => PWR
  | QUO_ASSIGN => QUO
  | REM_ASSIGN => REM
  | _ => ILLEGAL
  end.

(** The closure [eval] of [ResolveAssignmentExpression]: with one member
    left it calls [Set], otherwise it reads [members[0]] and descends. *)
Fixpoint eval (object : ValueObject) (current : option Object) (members : list string)
    : R unit :=
  match asValueObject current with
  | Some valueObj =>
      match members with
      | [] => Panic "index out of range [0] with length 0"
      | member :: rest =>
          match rest with
          | [] => ofError (Value_Set valueObj member object)
          | _ :: _ => eval object (Value_Get valueObj member) rest
          end
      end
  | None => Fail (NodeError "cannot assign to non-value object")
  end.

Definition ResolveAssignmentExpression (expr : AssignmentExpression) : St unit :=
  match expr with
  | mkAssignmentExpression Members Operator Init =>
      match Members with
      | [] => liftR (Panic "index out of range [0] with length 0")
      | name :: rest =>
          let* st := getS in
          if bool_decide (is_Some (immutable st !! name))
          then failS (NodeError ("cannot reassign immutable variable " +:+ name))
          else
            let parentObject := local st !! name in
            let* originalObject := liftR (ResolveSelector st Members) in
            match asValueObject originalObject with
            | Some object =>
                let* operand := liftR (ResolveValueObject E st Init) in
                let* object :=
                  (if decide (Operator = ASSIGN)
                   then liftR (Construct (Class_of object) operand)
                   else liftR (wrapNodeError
                          (Operate (getEffectOperator Operator) (Some object) operand))) in
                let* _ := liftR (eval object parentObject rest) in
                modifyS (setLocal name parentObject)
            | None => failS (NodeError "cannot assign to non-value object")
            end
      end
  end.

Definition ValidateAssignmentExpression (expr : AssignmentExpression) : St unit :=
  match expr with
  | mkAssignmentExpression Members Operator Init =>
      match Members with
      | [] => liftR (Panic "index out of range [0] with length 0")
      | name :: rest =>
          let* st := getS in
          if bool_decide (is_Some (immutable st !! name))
          then failS (NodeError ("cannot reassign immutable variable " +:+ name))
          else
            let* currentObject := liftR (selectMembers (local st !! name) rest) in
            match asClass currentObject with
            | Some class =>
                let* operand := liftR (ValidateExpression E st Init) in
                if decide (Operator = ASSIGN)
                then liftR (wrapNodeError (ShouldConstruct operand (Some class)))
                else liftR (wrapNodeError
                       (ShouldOperate (getEffectOperator Operator) (Some class) operand))
            | None => failS (NodeError "cannot assign to non-value object")
            end
      end
  end.

(** *** Guard statements *)

Definition guardStatementHandler (st : SymbolTable) : R (ValueObject * Function) :=
  match asValueObject (immutable st !! "self") with
  | Some protoObject =>
      match asFunction (Value_Get protoObject "guard") with
      | Some guardFn => Ok (protoObject, guardFn)
      | None => Fail (NodeError "function has no guard directive")
      end
  | None => Fail (NodeError "function has no guard directive")
  end.

Definition ValidateGuardStatement (Init : Expression) : St unit :=
  let* st := getS in
  let* (_, guardFn) := liftR (guardStatementHandler st) in
  let* class := liftR (ValidateExpression E st Init) in
  liftR (wrapNodeError (ValidateMethodArguments guardFn [class])).

(** *** Switch blocks: validation reads the case conditions only *)

Fixpoint validateCases (st : SymbolTable) (comparable : OperatorRulesMap)
    (cases : list CaseBlock) (hasDefaultBlock : bool) : R unit :=
  match cases with
  | [] => Ok tt
  | mkCaseBlock IsDefault Condition _ :: rest =>
      if IsDefault then
        if hasDefaultBlock
        then Fail (NodeError "switch statement can only have one default block")
        else validateCases st comparable rest true
      else
        match Condition with
        | None => Panic "invalid memory address or nil pointer dereference"
        | Some cond =>
            let! caseCondition := ValidateExpression E st cond in
            match caseCondition with
            | None => Panic "invalid memory address or nil pointer dereference"
            | Some caseClass =>
                match Rules_Get comparable caseClass EQUALS with
                | Some _ => validateCases st comparable rest hasDefaultBlock
                | None => Fail (NodeError
                    "switch statement case condition must be comparable to switch target")
                end
            end
        end
  end.

Definition ValidateSwitchBlock (expr : SwitchBlock) : St unit :=
  match expr with
  | mkSwitchBlock Target cases =>
      let* st := getS in
      let* target := liftR (ValidateExpression E st Target) in
      match target ≫= ComparableRules with
      | Some comparable => liftR (validateCases st comparable cases false)
      | None => failS InoperableSwitchTargetError
      end
  end.

(** *** Validation of statements and blocks *)

Definition isBoolean (c : option Class) : bool :=
  match c with Some Boolean => true | _ => false end.
Definition isErrorClass (c : option Class) : bool :=
  match c with Some Error_ => true | _ => false end.

(** [for _, stmt := range stmts { err := f(stmt); if err != nil { return err } }] *)
Fixpoint forStatements (f : BlockStatement -> St unit) (stmts : list BlockStatement) : St unit :=
  match stmts with
  | [] => ret tt
  | stmt :: rest => let* _ := f stmt in forStatements f rest
  end.

(** The loop of [ValidateBlock]: [continue] and [break] are refused before
    the statement is dispatched. *)
Fixpoint forStatementsOutsideLoop (f : BlockStatement -> St unit) (stmts : list BlockStatement)
    : St unit :=
  match stmts with
  | [] => ret tt
  | stmt :: rest =>
      match stmtInit stmt with
      | NContinueStatement => failS (NodeError "continue statement outside loop")
      | NBreakStatement => failS (NodeError "break statement outside loop")
      | _ => let* _ := f stmt in forStatementsOutsideLoop f rest
      end
  end.

(** The part of [ValidateForStatement] before the body. *)
Definition validateForClause (clause : ForClause) : St unit :=
  match clause with
  | ForCondition Init Condition Update =>
      let* _ := match Init with
                | Some d => ResolveDeclarationStatement d false
                | None => ret tt
                end in
      let* scopeTable := getS in
      let* condition := liftR (ValidateExpression E scopeTable Condition) in
      if negb (isBoolean condition)
      then failS (NodeError "for statement condition must be a boolean")
      else
        match Update with
        | UpdateExpression updateExpr =>
            let* _ := liftR (ValidateExpression E scopeTable updateExpr) in ret tt
        | UpdateAssignment updateExpr => ValidateAssignmentExpression updateExpr
        | UpdateNone => ret tt
        end
  | RangeCondition Index Value Target =>
      let* scopeTable := getS in
      let* targetObject := liftR (ValidateExpression E scopeTable Target) in
      match targetObject with
      | Some (Iterable_ ParentType) =>
          let* _ := modifyS (setLocal Index (Some (OValue (IntegerLiteral 0)))) in
          modifyS (setLocal Value (Some (OClass ParentType)))
      | _ => failS NotIterableError
      end
  | OtherClause => failS (NodeError "invalid for condition")
  end.

Fixpoint ValidateBlockStatement (expr : BlockStatement) {struct expr} : St unit :=
  match expr with
  | mkBlockStatement init =>
      match init with
      | NExpression e =>
          let* st := getS in
          let* _ := liftR (ValidateExpression E st e) in ret tt
      | NDeclarationStatement d => ResolveDeclarationStatement d false
      | NAssignmentExpression a => ValidateAssignmentExpression a
      | NIfStatement s => ValidateIfStatement s
      | NWhileStatement s => ValidateWhileStatement s
      | NForStatement s => ValidateForStatement s
      | NSwitchBlock s => ValidateSwitchBlock s
      | NGuardStatement Init => ValidateGuardStatement Init
      | NReturnStatement Init =>
          let* st := getS in
          let* _ := liftR (ValidateExpression E st Init) in ret tt
      | NThrowStatement Init =>
          let* st := getS in
          let* returnObject := liftR (ValidateExpression E st Init) in
          if isErrorClass returnObject then ret tt
          else failS (NodeError "throw statement must be an error")
      | NContinueStatement | NBreakStatement | NOther _ =>
          failS (NodeError ("unknown block statement type " +:+ nodeTypeName init))
      end
  end
with ValidateIfStatement (expr : IfStatement) {struct expr} : St unit :=
  match expr with
  | mkIfStatement Condition Body Alternate =>
      let* st := getS in
      let* condition := liftR (ValidateExpression E st Condition) in
      if negb (isBoolean condition)
      then failS (NodeError "if condition must be a boolean")
      else
        let* _ := ValidateBlock Body in
        match Alternate with
        | AlternateIf alt => ValidateIfStatement alt
        | AlternateBlock alt => ValidateBlock alt
        | AlternateNone => ret tt
        end
  end
with ValidateWhileStatement (expr : WhileStatement) {struct expr} : St unit :=
  match expr with
  | mkWhileStatement Condition Body =>
      let* st := getS in
      let* condition := liftR (ValidateExpression E st Condition) in
      if negb (isBoolean condition)
      then failS (NodeError "if condition must be a boolean")
      else ValidateLoopBlock Body
  end
with ValidateForStatement (expr : ForStatement) {struct expr} : St unit :=
  match expr with
  | mkForStatement Condition Body =>
      onClone (let* _ := validateForClause Condition in ValidateLoopBlock Body)
  end
with ValidateBlock (expr : Block) {struct expr} : St unit :=
  match expr with
  | mkBlock stmts => forStatementsOutsideLoop ValidateBlockStatement stmts
  end
with ValidateLoopBlock (expr : Block) {struct expr} : St unit :=
  match expr with
  | mkBlock stmts => forStatements ValidateBlockStatement stmts
  end.

(** *** Return coverage

    These methods read the table and never write it, so they take it as an
    argument and return the Go pair [(bool, error)] alone. *)

(** The loop of [ValidateBlockReturns]: the first statement that returns
    decides. *)
Fixpoint anyStatementReturns (f : BlockStatement -> R bool) (stmts : list BlockStatement)
    : R bool :=
  match stmts with
  | [] => Ok false
  | stmt :: rest =>
      let! doesReturn := f stmt in
      if doesReturn : bool then Ok true else anyStatementReturns f rest
  end.

(** The first loop of [ValidateSwitchBlockReturns]: [false] as soon as the
    body of a non-default case does not return. *)
Fixpoint allCasesReturn (f : Block -> R bool) (cases : list CaseBlock) : R bool :=
  match cases with
  | [] => Ok true
  | mkCaseBlock IsDefault _ Body :: rest =>
      if IsDefault then allCasesReturn f rest
      else
        let! blockPassed := f Body in
        if blockPassed : bool then allCasesReturn f rest else Ok false
  end.

(** Its second loop: the first default case decides. *)
Fixpoint defaultCaseReturns (f : Block -> R bool) (cases : list CaseBlock) : R bool :=
  match cases with
  | [] => Ok false
  | mkCaseBlock IsDefault _ Body :: rest =>
      if IsDefault then f Body else defaultCaseReturns f rest
  end.

Fixpoint ValidateBlockReturns (st : SymbolTable) (expr : Block) (shouldReturn : Class)
    {struct expr} : R bool :=
  match expr with
  | mkBlock stmts =>
      anyStatementReturns (fun stmt => statementReturns st stmt shouldReturn) stmts
  end
(** The [switch] in the loop of [ValidateBlockReturns]. *)
with statementReturns (st : SymbolTable) (stmt : BlockStatement) (shouldReturn : Class)
    {struct stmt} : R bool :=
  match stmt with
  | mkBlockStatement init =>
      match init with
      | NReturnStatement Init =>
          let! returnClass := ValidateExpression E st Init in
          let! _ := wrapNodeError (ShouldConstruct (Some shouldReturn) returnClass) in
          Ok true
      | NThrowStatement Init =>
          let! returnObject := ValidateExpression E st Init in
          match returnObject with
          | Some Error_ => Ok true
          | Some c => Fail (NodeError ("throw type " +:+ ClassName c +:+ " is not an error"))
          | None => Panic "invalid memory address or nil pointer dereference"
          end
      | NIfStatement s => ValidateIfStatementReturns st s shouldReturn
      | NWhileStatement s => ValidateWhileStatementReturns st s shouldReturn
      | NForStatement s => ValidateForStatementReturns st s shouldReturn
      | NSwitchBlock s => ValidateSwitchBlockReturns st s shouldReturn
      | _ => Ok false
      end
  end
with ValidateIfStatementReturns (st : SymbolTable) (expr : IfStatement) (shouldReturn : Class)
    {struct expr} : R bool :=
  match expr with
  | mkIfStatement _ Body Alternate =>
      let! blockPassed := ValidateBlockReturns st Body shouldReturn in
      if blockPassed : bool then
        match Alternate with
        | AlternateIf alt => ValidateIfStatementReturns st alt shouldReturn
        | AlternateBlock alt => ValidateBlockReturns st alt shouldReturn
        | AlternateNone => Ok false
        end
      else Ok false
  end
with ValidateWhileStatementReturns (st : SymbolTable) (expr : WhileStatement)
    (shouldReturn : Class) {struct expr} : R bool :=
  match expr with
  | mkWhileStatement _ Body => ValidateBlockReturns st Body shouldReturn
  end
with ValidateForStatementReturns (st : SymbolTable) (expr : ForStatement)
    (shouldReturn : Class) {struct expr} : R bool :=
  match expr with
  | mkForStatement _ Body => ValidateBlockReturns st Body shouldReturn
  end
with ValidateSwitchBlockReturns (st : SymbolTable) (expr : SwitchBlock)
    (shouldReturn : Class) {struct expr} : R bool :=
  match expr with
  | mkSwitchBlock _ cases =>
      let! all := allCasesReturn (fun body => ValidateBlockReturns st body shouldReturn) cases in
      if all : bool
      then defaultCaseReturns (fun body => ValidateBlockReturns st body shouldReturn) cases
      else Ok false
  end.

(** *** Evaluation of statements and blocks *)

(** The first half of the handler closure of [ResolveFunctionBlock], on the
    fresh clone: bind the arguments, then [self] when a receiver is given. *)
Definition prepareExecTable (node : FunctionBlock) (args : list (option ValueObject))
    (proto : option ValueObject) : St unit :=
  let* _ := ApplyArgumentList (Arguments node) 0 args in
  match proto with
  | Some _ => modifyS (setImmutable "self" (ofValue proto))
  | None => ret tt
  end.

(** The loop of [ResolveBlock]: the first non-nil return value ends it. *)
Fixpoint runStatements (f : BlockStatement -> St (option ValueObject))
    (stmts : list BlockStatement) : St (option ValueObject) :=
  match stmts with
  | [] => ret None
  | stmt :: rest =>
      let* returnObject := f stmt in
      match returnObject with
      | Some v => ret (Some v)
      | None => runStatements f rest
      end
  end.

(** How one pass over the statements of a loop body ends: at the end of the
    list, at a [continue] or a [break] that is a direct child, or with a
    return value. *)
Inductive LoopExit :=
| BodyDone
| BodyContinue
| BodyBreak
| BodyReturn (returnObject : ValueObject).

Fixpoint runLoopStatements (f : BlockStatement -> St (option ValueObject))
    (stmts : list BlockStatement) : St LoopExit :=
  match stmts with
  | [] => ret BodyDone
  | stmt :: rest =>
      match stmtInit stmt with
      | NContinueStatement => ret BodyContinue
      | NBreakStatement => ret BodyBreak
      | _ =>
          let* returnObject := f stmt in
          match returnObject with
          | Some v => ret (BodyReturn v)
          | None => runLoopStatements f rest
          end
      end
  end.

(** The [rangeLoopBlock] loop of [ResolveForStatement]. *)
Fixpoint rangeLoopBlock (f : BlockStatement -> St (option ValueObject))
    (Index Value : string) (stmts : list BlockStatement)
    (idx : nat) (items : list ValueObject) : St (option ValueObject) :=
  match items with
  | [] => ret None
  | item :: rest =>
      let* _ := modifyS (setLocal Index (Some (OValue (IntegerLiteral (Z.of_nat idx))))) in
      let* _ := modifyS (setLocal Value (Some (OValue item))) in
      let* exit := runLoopStatements f stmts in
      match exit with
      | BodyDone | BodyContinue => rangeLoopBlock f Index Value stmts (S idx) rest
      | BodyBreak => ret None
      | BodyReturn v => ret (Some v)
      end
  end.

Definition isTrue (evaluated : ValueObject) : bool :=
  match evaluated with BooleanLiteral b => b | _ => false end.

(** The first loop of [ResolveSwitchBlock], over all the statements of the
    switch: [(Some v, _)] when a case body returned [v], otherwise
    [(None, resolved)] at the end of the list. *)
Fixpoint resolveCases (resolveBlock : Block -> St (option ValueObject))
    (target : ValueObject) (cases : list CaseBlock) (resolved : bool)
    : St (option ValueObject * bool) :=
  match cases with
  | [] => ret (None, resolved)
  | mkCaseBlock IsDefault Condition Body :: rest =>
      if IsDefault then resolveCases resolveBlock target rest resolved
      else
        match Condition with
        | None => liftR (Panic "invalid memory address or nil pointer dereference")
        | Some cond =>
            let* st := getS in
            let* caseCondition := liftR (ResolveValueObject E st cond) in
            let* evaluated :=
              liftR (wrapNodeError (Operate EQUALS (Some target) caseCondition)) in
            if isTrue evaluated then
              let* returnObject := resolveBlock Body in
              match returnObject with
              | Some v => ret (Some v, true)
              | None => resolveCases resolveBlock target rest true
              end
            else resolveCases resolveBlock target rest resolved
        end
  end.

(** Its second loop, run when no case matched: the default cases. *)
Fixpoint resolveDefaultCases (resolveBlock : Block -> St (option ValueObject))
    (cases : list CaseBlock) : St (option ValueObject) :=
  match cases with
  | [] => ret None
  | mkCaseBlock IsDefault _ Body :: rest =>
      if IsDefault then
        let* returnObject := resolveBlock Body in
        match returnObject with
        | Some v => ret (Some v)
        | None => resolveDefaultCases resolveBlock rest
        end
      else resolveDefaultCases resolveBlock rest
  end.

Definition unknownStatement {A} (init : Node) : St A :=
  failS (NodeError ("unknown block statement type " +:+ nodeTypeName init)).

Fixpoint ResolveBlockStatement (fuel : nat) (expr : BlockStatement) {struct fuel}
    : St (option ValueObject) :=
  match fuel with
  | O => liftR OutOfFuel
  | S fuel =>
      match stmtInit expr with
      | NExpression e =>
          let* st := getS in
          let* _ := liftR (ResolveExpression E st e) in ret None
      | NDeclarationStatement d =>
          let* _ := ResolveDeclarationStatement d true in ret None
      | NAssignmentExpression a =>
          let* _ := ResolveAssignmentExpression a in ret None
      | NIfStatement s => ResolveIfStatement fuel s
      | NWhileStatement s => ResolveWhileStatement fuel s
      | NForStatement s => ResolveForStatement fuel s
      | NSwitchBlock s => ResolveSwitchBlock fuel s
      | NGuardStatement Init =>
          let* _ := ResolveGuardStatement fuel Init in ret None
      | NReturnStatement Init =>
          let* st := getS in
          liftR (ResolveValueObject E st Init)
      | NThrowStatement Init =>
          let* st := getS in
          let* returnObject := liftR (ResolveValueObject E st Init) in
          match returnObject with
          | Some (Error m) => failS (Thrown (Error m))
          | _ => failS (NodeError "throw statement must be an error")
          end
      | (NContinueStatement | NBreakStatement | NOther _) as init => unknownStatement init
      end
  end
with ResolveBlock (fuel : nat) (expr : Block) {struct fuel} : St (option ValueObject) :=
  match fuel with
  | O => liftR OutOfFuel
  | S fuel => runStatements (ResolveBlockStatement fuel) (Statements expr)
  end
with ResolveIfStatement (fuel : nat) (expr : IfStatement) {struct fuel}
    : St (option ValueObject) :=
  match fuel with
  | O => liftR OutOfFuel
  | S fuel =>
      match expr with
      | mkIfStatement Condition Body Alternate =>
          let* st := getS in
          let* condition := liftR (ResolveValueObject E st Condition) in
          match condition with
          | Some (BooleanLiteral conditionResult) =>
              if conditionResult then ResolveBlock fuel Body
              else
                match Alternate with
                | AlternateIf alt => ResolveIfStatement fuel alt
                | AlternateBlock alt => ResolveBlock fuel alt
                | AlternateNone => ret None
                end
          | _ => failS (NodeError "if condition must be a boolean")
          end
      end
  end
with ResolveWhileStatement (fuel : nat) (expr : WhileStatement) {struct fuel}
    : St (option ValueObject) :=
  match fuel with
  | O => liftR OutOfFuel
  | S fuel =>
      match expr with
      | mkWhileStatement Condition Body =>
          let* st := getS in
          let* condition := liftR (ResolveValueObject E st Condition) in
          match condition with
          | Some (BooleanLiteral conditionResult) =>
              if negb conditionResult then ret None
              else
                let* exit := runLoopStatements (ResolveBlockStatement fuel) (Statements Body) in
                match exit with
                | BodyDone | BodyContinue => ResolveWhileStatement fuel expr
                | BodyBreak => ret None
                | BodyReturn v => ret (Some v)
                end
          | _ => failS (NodeError "while condition must be a boolean")
          end
      end
  end
(** The [forLoopBlock] loop of [ResolveForStatement], on the scope table.
    A [continue] goes back to the condition without running the update. *)
with forLoopBlock (fuel : nat) (Condition : Expression) (Update : ForUpdate) (Body : Block)
    {struct fuel} : St (option ValueObject) :=
  match fuel with
  | O => liftR OutOfFuel
  | S fuel =>
      let* scopeTable := getS in
      let* condition := liftR (ResolveValueObject E scopeTable Condition) in
      match condition with
      | Some (BooleanLiteral conditionResult) =>
          if negb conditionResult then ret None
          else
            let* exit := runLoopStatements (ResolveBlockStatement fuel) (Statements Body) in
            match exit with
            | BodyDone =>
                let* _ :=
                  match Update with
                  | UpdateExpression updateExpr =>
                      let* scopeTable := getS in
                      let* _ := liftR (ResolveValueObject E scopeTable updateExpr) in ret tt
                  | UpdateAssignment updateExpr => ResolveAssignmentExpression updateExpr
                  | UpdateNone => ret tt
                  end in
                forLoopBlock fuel Condition Update Body
            | BodyContinue => forLoopBlock fuel Condition Update Body
            | BodyBreak => ret None
            | BodyReturn v => ret (Some v)
            end
      | _ => failS (NodeError "for condition must be a boolean")
      end
  end
with ResolveForStatement (fuel : nat) (expr : ForStatement) {struct fuel}
    : St (option ValueObject) :=
  match fuel with
  | O => liftR OutOfFuel
  | S fuel =>
      match expr with
      | mkForStatement (ForCondition Init Condition Update) Body =>
          onClone (
            let* _ := match Init with
                      | Some d => ResolveDeclarationStatement d true
                      | None => ret tt
                      end in
            forLoopBlock fuel Condition Update Body)
      | mkForStatement (RangeCondition Index Value Target) Body =>
          let* st := getS in
          let* targetObject := liftR (ResolveValueObject E st Target) in
          match targetObject with
          | Some (Iterable _ Items) =>
              onClone (rangeLoopBlock (ResolveBlockStatement fuel) Index Value
                         (Statements Body) 0 Items)
          | _ => failS NotIterableError
          end
      | mkForStatement OtherClause _ => ret None
      end
  end
with ResolveSwitchBlock (fuel : nat) (expr : SwitchBlock) {struct fuel}
    : St (option ValueObject) :=
  match fuel with
  | O => liftR OutOfFuel
  | S fuel =>
      match expr with
      | mkSwitchBlock Target cases =>
          let* st := getS in
          let* target := liftR (ResolveValueObject E st Target) in
          match target with
          | None => liftR (Panic "invalid memory address or nil pointer dereference")
          | Some target =>
              if isOperableClass (Class_of target) then
                let* (returned, resolved) :=
                  resolveCases (ResolveBlock fuel) target cases false in
                match returned with
                | Some v => ret (Some v)
                | None =>
                    if negb resolved then resolveDefaultCases (ResolveBlock fuel) cases
                    else ret None
                end
              else failS InoperableSwitchTargetError
          end
      end
  end
with ResolveGuardStatement (fuel : nat) (Init : Expression) {struct fuel} : St unit :=
  match fuel with
  | O => liftR OutOfFuel
  | S fuel =>
      let* st := getS in
      let* (protoObject, guardFn) := liftR (guardStatementHandler st) in
      let* obj := liftR (ResolveValueObject E st Init) in
      let* _ := liftR (Call fuel guardFn [obj] (Some protoObject)) in
      ret tt
  end
(** [fn.Call(args, proto)], with the body of each handler closure. *)
with Call (fuel : nat) (fn : Function) (args : list (option ValueObject))
    (proto : option ValueObject) {struct fuel} : R (option ValueObject) :=
  match fuel with
  | O => OutOfFuel
  | S fuel =>
      if negb (length args =? length (arguments fn))%nat
      then Fail (arityError (length (arguments fn)) (length args))
      else
        let! args := ResolveMethodArguments fn args in
        match handler fn with
        | None => Panic "invalid memory address or nil pointer dereference"
        | Some (lowerHandler sl) => Ok (Some (StringLiteral (strings_ToLower sl)))
        | Some (upperHandler sl) => Ok (Some (StringLiteral (strings_ToUpper sl)))
        | Some DateNowHandler => Ok (Some DateLiteral)
        | Some DateTimeNowHandler => Ok (Some DateTimeLiteral)
        | Some (blockHandler st node fn_returns) =>
            let execTable := Clone st in
            let! obj := fst (
              (let* _ := prepareExecTable node args proto in
               ResolveBlock fuel (Body node)) execTable) in
            match fn_returns with
            | Some returns => let! v := Construct returns obj in Ok (Some v)
            | None => Ok None
            end
        end
  end.

(** *** Function binding *)

Definition ResolveFunctionBlock (st : SymbolTable) (node : FunctionBlock)
    (proto : option ValueObject) : R Function :=
  let scopeTable := Clone st in
  fst (
    (let* args := ResolveArgumentList (Arguments node) in
     let* _ := match proto with
               | Some _ => modifyS (setImmutable "self" (ofValue proto))
               | None => ret tt
               end in
     let* _ := ValidateBlock (Body node) in
     let* fn_returns :=
       match ReturnType node with
       | Some returnType =>
           let* scopeTable := getS in
           let* returns := liftR (ResolveTypeExpression E scopeTable returnType) in
           let* passes := liftR (ValidateBlockReturns scopeTable (Body node) returns) in
           if negb passes then failS (NodeError "expected return")
           else ret (Some returns)
       | None => ret None
       end in
     ret (mkFunction args fn_returns (Some (blockHandler st node fn_returns)))) scopeTable).

(** ** The vocabulary of the properties *)

(** The numeric value of an operand, "coerced through the Number
    constructor": an [int64] is widened, a [float64] is kept. *)
Definition toNumber (v : ValueObject) : option float :=
  match v with
  | NumberLiteral f | DoubleLiteral f | FloatLiteral f => Some f
  | IntegerLiteral i => Some (float64_of_int64 i)
  | _ => None
  end.

(** The class's constructor from [Number]: "Integer truncating, Double
    quantising". *)
Definition fromNumber (c : Class) (x : float) : option ValueObject :=
  match c with
  | Number => Some (NumberLiteral x)
  | Double => Some (DoubleLiteral (math_Ceil (x * 100) / 100)%float)
  | Float => Some (FloatLiteral x)
  | Integer => Some (IntegerLiteral (int64_of_float64 x))
  | _ => None
  end.

(** The host operation behind an arithmetic token. *)
Definition arithmetic (op : Token) (x y : float) : option float :=
  match op with
  | ADD => Some (x + y)%float
  | SUB => Some (x - y)%float
  | MUL => Some (x * y)%float
  | PWR => Some (math_Pow x y)
  | QUO => Some (x / y)%float
  | REM => Some (math_Mod x y)
  | _ => None
  end.

(** The host comparison behind a comparison token. *)
Definition comparison (op : Token) (x y : float) : option bool :=
  match op with
  | EQUALS => Some (x =? y)%float
  | NOT_EQUALS => Some (negb (x =? y))%float
  | LESS => Some (x <? y)%float
  | GREATER => Some (y <? x)%float
  | LESS_EQUAL => Some (x <=? y)%float
  | GREATER_EQUAL => Some (y <=? x)%float
  | _ => None
  end.

(** Whether a case of a switch matches in table [st]: the test of the first
    loop of [ResolveSwitchBlock]. *)
Definition caseMatches (st : SymbolTable) (target : ValueObject) (c : CaseBlock) : R bool :=
  match c with
  | mkCaseBlock IsDefault Condition _ =>
      if IsDefault then Ok false
      else
        match Condition with
        | None => Panic "invalid memory address or nil pointer dereference"
        | Some cond =>
            let! caseCondition := ResolveValueObject E st cond in
            let! evaluated := wrapNodeError (Operate EQUALS (Some target) caseCondition) in
            Ok (isTrue evaluated)
        end
  end.

Definition caseIsDefault (c : CaseBlock) : bool :=
  match c with mkCaseBlock IsDefault _ _ => IsDefault end.
Definition caseBody (c : CaseBlock) : Block :=
  match c with mkCaseBlock _ _ Body => Body end.

(** Run blocks in order until one yields a return value. *)
Fixpoint runBlocks (resolveBlock : Block -> St (option ValueObject)) (blocks : list Block)
    : St (option ValueObject) :=
  match blocks with
  | [] => ret None
  | b :: rest =>
      let* returnObject := resolveBlock b in
      match returnObject with
      | Some v => ret (Some v)
      | None => runBlocks resolveBlock rest
      end
  end.

(** The first loop of a switch as the specification words it: "execute the
    first matching case's body", and no later one. *)
Fixpoint firstMatchCases (resolveBlock : Block -> St (option ValueObject))
    (target : ValueObject) (cases : list CaseBlock) : St (option ValueObject * bool) :=
  match cases with
  | [] => ret (None, false)
  | mkCaseBlock IsDefault Condition Body :: rest =>
      if IsDefault then firstMatchCases resolveBlock target rest
      else
        match Condition with
        | None => liftR (Panic "invalid memory address or nil pointer dereference")
        | Some cond =>
            let* st := getS in
            let* caseCondition := liftR (ResolveValueObject E st cond) in
            let* evaluated :=
              liftR (wrapNodeError (Operate EQUALS (Some target) caseCondition)) in
            if isTrue evaluated then
              let* returnObject := resolveBlock Body in ret (returnObject, true)
            else firstMatchCases resolveBlock target rest
        end
  end.

(** The switch of the specification: [ResolveSwitchBlock] with the first
    loop replaced by [firstMatchCases]. *)
Definition firstMatchSwitch (fuel : nat) (expr : SwitchBlock) : St (option ValueObject) :=
  match expr with
  | mkSwitchBlock Target cases =>
      let* st := getS in
      let* target := liftR (ResolveValueObject E st Target) in
      match target with
      | None => liftR (Panic "invalid memory address or nil pointer dereference")
      | Some target =>
          if isOperableClass (Class_of target) then
            let* (returned, resolved) :=
              firstMatchCases (ResolveBlock fuel) target cases in
            match returned with
            | Some v => ret (Some v)
            | None =>
                if negb resolved then resolveDefaultCases (ResolveBlock fuel) cases
                else ret None
            end
          else failS InoperableSwitchTargetError
      end
  end.

(** Whether a statement is a [continue] or a [break]. *)
Definition isLoopControl (s : BlockStatement) : bool :=
  match stmtInit s with
  | NContinueStatement | NBreakStatement => true
  | _ => false
  end.

(** A case with its body replaced. *)
Definition withBody (body : Block) (c : CaseBlock) : CaseBlock :=
  match c with mkCaseBlock IsDefault Condition _ => mkCaseBlock IsDefault Condition body end.

(** The initialiser of a [ForCondition], run on the scope table. *)
Definition forInit (Init : option DeclarationStatement) : St unit :=
  match Init with
  | Some d => ResolveDeclarationStatement d true
  | None => ret tt
  end.

(** A computation that leaves [immutable] as it found it. *)
Definition keepsImmutable {A} (m : St A) : Prop :=
  forall st, immutable (snd (m st)) = immutable st.

(** The switch as the amended reading words it: the cases are tested in
    order, each in the table as it is then; the body of every case whose
    test holds is run, until one yields a return value; [otherwise] is what
    is run when no case matched. *)
Fixpoint matchingCases (resolveBlock : Block -> St (option ValueObject))
    (target : ValueObject) (cases : list CaseBlock) (otherwise : St (option ValueObject))
    : St (option ValueObject) :=
  match cases with
  | [] => otherwise
  | c :: rest =>
      let* st := getS in
      let* matches := liftR (caseMatches st target c) in
      if matches : bool then
        let* returnObject := resolveBlock (caseBody c) in
        match returnObject with
        | Some v => ret (Some v)
        | None => matchingCases resolveBlock target rest (ret None)
        end
      else matchingCases resolveBlock target rest otherwise
  end.

(** * Properties *)

#[local] Arguments Construct : simpl never.
#[local] Arguments ShouldConstruct : simpl never.
#[local] Arguments Operate : simpl never.
#[local] Arguments ShouldOperate : simpl never.

(** ** The primitive kernel *)

Lemma Double_Constructors_numeric (c : Class) :
  numericClass c = true ->
  ConstructorMap_Get (Constructors Double) c = Some Double_numericConstructor.
Proof. destruct c; intros H; try discriminate H; reflexivity. Qed.

(** The quantising constructor on a value backed by a [float64]. *)
Lemma Construct_Double_float64 (v : ValueObject) (x : float) :
  numericClass (Class_of v) = true ->
  Value v = HFloat64 x ->
  Construct Double (Some v) = Ok (DoubleLiteral (math_Ceil (x * 100) / 100)%float).
Proof.
  intros Hc Hv. unfold Construct.
  rewrite (Double_Constructors_numeric _ Hc).
  unfold Double_numericConstructor. rewrite Hv. reflexivity.
Qed.

(** The same constructor is registered for [Integer], whose [Value()] is an
    [int64]: the assertion [.(float64)] panics. *)
Lemma Construct_Double_Integer (i : Z) :
  Construct Double (Some (IntegerLiteral i))
  = Panic "interface conversion: interface {} is not float64".
Proof. reflexivity. Qed.

(** C6, as amended. For a value [V] of a kernel class,
    [Construct(V.Class(), V)] returns [V] itself when the class is Boolean,
    String, Number, Integer or Float, returns the re-rounded
    [ceil(x*100)/100] when it is Double, and fails with
    [cannot construct C from C] when it is Nil, Date or DateTime, whose
    constructor maps are empty. *)
Theorem Construct_own_class (V : ValueObject) :
  primitive V = true ->
  match V with
  | NilLiteral | DateLiteral | DateTimeLiteral =>
      Construct (Class_of V) (Some V)
      = Fail (Errorf ("cannot construct " +:+ ClassName (Class_of V) +:+ " from "
                        +:+ ClassName (Class_of V)))
  | DoubleLiteral x =>
      Construct (Class_of V) (Some V) = Ok (DoubleLiteral (math_Ceil (x * 100) / 100)%float)
  | _ => Construct (Class_of V) (Some V) = Ok V
  end.
Proof. destruct V; intros H; try discriminate H; reflexivity. Qed.

(** The Number constructor applied to an operand of a numeric class. *)
Lemma numConstructor_toNumber (v : ValueObject) (x : float) :
  toNumber v = Some x ->
  call1 numConstructor v = Ok (NumberLiteral x).
Proof. destruct v; intros [= <-]; reflexivity. Qed.

Lemma toNumber_numeric (v : ValueObject) :
  numericClass (Class_of v) = true -> exists x, toNumber v = Some x.
Proof. destruct v; intros H; try discriminate H; eauto. Qed.

(** The class's own constructor from [Number], as [OperatorRules] takes it. *)
Lemma fromNumber_constructor (C : Class) (z : float) (r : ValueObject) :
  fromNumber C z = Some r ->
  call1 (ConstructorMap_Get (Constructors C) Number) (NumberLiteral z) = Ok r
  /\ Class_of r = C.
Proof. destruct C; intros [= <-]; split; reflexivity. Qed.

Lemma numOperatorPredicate_apply cb (a b : ValueObject) (x y : float) :
  toNumber a = Some x -> toNumber b = Some y ->
  numOperatorPredicate cb a b = cb x y.
Proof.
  intros Ha Hb. unfold numOperatorPredicate.
  rewrite (numConstructor_toNumber _ _ Ha), (numConstructor_toNumber _ _ Hb). reflexivity.
Qed.

Lemma numComparePredicate_apply cb (a b : ValueObject) (x y : float) :
  toNumber a = Some x -> toNumber b = Some y ->
  numComparePredicate cb a b = Ok (BooleanLiteral (cb x y)).
Proof.
  intros Ha Hb. unfold numComparePredicate.
  rewrite (numConstructor_toNumber _ _ Ha), (numConstructor_toNumber _ _ Hb). reflexivity.
Qed.

(** The rule registered under [(other, op)] in [numOperatorMap fn]. *)
Lemma numOperatorMap_rule (fn : option ConstructorFn) (other : Class) (op : Token)
    (a b : ValueObject) (x y z : float) :
  numericClass other = true ->
  arithmetic op x y = Some z ->
  toNumber a = Some x -> toNumber b = Some y ->
  exists rule, Rules_Get (numOperatorMap fn) other op = Some rule
               /\ rule a b = call1 fn (NumberLiteral z).
Proof.
  intros Ho Hop Ha Hb.
  destruct other; try discriminate Ho;
    destruct op; try discriminate Hop; injection Hop as <-;
    (eexists; split; [reflexivity | exact (numOperatorPredicate_apply _ _ _ _ _ Ha Hb)]).
Qed.

(** The rule registered under [(other, op)] in [numCompareMap]. *)
Lemma numCompareMap_rule (other : Class) (op : Token)
    (a b : ValueObject) (x y : float) (t : bool) :
  numericClass other = true ->
  comparison op x y = Some t ->
  toNumber a = Some x -> toNumber b = Some y ->
  exists rule, Rules_Get numCompareMap other op = Some rule
               /\ rule a b = Ok (BooleanLiteral t).
Proof.
  intros Ho Hop Ha Hb.
  destruct other; try discriminate Ho;
    destruct op; try discriminate Hop; injection Hop as <-;
    (eexists; split; [reflexivity | exact (numComparePredicate_apply _ _ _ _ _ Ha Hb)]).
Qed.

(** The numeric rule maps hold no other rule: the keys are the four numeric
    classes with the six arithmetic tokens, or with the six comparison
    tokens. *)
Lemma numOperatorMap_keys (fn : option ConstructorFn) (k : string * Token) (rule : OperatorFn) :
  numOperatorMap fn !! k = Some rule -> In k (numericKeys arithmeticTokens).
Proof.
  unfold numOperatorMap, addNumOperatorMap, AddRule, NewRules. cbv zeta. intros H.
  repeat (rewrite lookup_insert in H;
          destruct (decide _) as [<-|_]; [simpl; tauto|]).
  rewrite lookup_empty in H. discriminate H.
Qed.

Lemma numCompareMap_keys (k : string * Token) (rule : OperatorFn) :
  numCompareMap !! k = Some rule -> In k (numericKeys comparisonTokens).
Proof.
  unfold numCompareMap, addNumCompareMap, AddRule, NewRules. cbv zeta. intros H.
  repeat (rewrite lookup_insert in H;
          destruct (decide _) as [<-|_]; [simpl; tauto|]).
  rewrite lookup_empty in H. discriminate H.
Qed.

(** The operator rule of a numeric class [C] for [(other, op)]. *)
Lemma operatorRule_numeric (C other : Class) (op : Token) (a b : ValueObject) (x y z : float) :
  numericClass C = true ->
  numericClass other = true ->
  toNumber a = Some x ->
  toNumber b = Some y ->
  arithmetic op x y = Some z ->
  exists rule r,
    operatorRule C other op = Some rule
    /\ rule a b = Ok r
    /\ fromNumber C z = Some r
    /\ call1 (ConstructorMap_Get (Constructors C) Number) (NumberLiteral z) = Ok r
    /\ Class_of r = C.
Proof.
  intros HC Ho Ha Hb Hz.
  assert (exists r, fromNumber C z = Some r) as [r Hr]
    by (destruct C; try discriminate HC; eexists; reflexivity).
  destruct (fromNumber_constructor _ _ _ Hr) as [Hcall Hclass].
  assert (exists fn, OperatorRules C = Some (numOperatorMap fn)
                     /\ fn = ConstructorMap_Get (Constructors C) Number) as (fn & HR & Hfn)
    by (destruct C; try discriminate HC; eexists; split; reflexivity).
  destruct (numOperatorMap_rule fn other op a b x y z Ho Hz Ha Hb) as (rule & Hget & Happ).
  exists rule, r. unfold operatorRule. rewrite HR. simpl. subst fn.
  rewrite Happ. auto.
Qed.

(** The comparator rule of a numeric class [C] for [(other, op)]. *)
Lemma comparatorRule_numeric (C other : Class) (op : Token) (a b : ValueObject) (x y : float)
    (t : bool) :
  numericClass C = true ->
  numericClass other = true ->
  toNumber a = Some x ->
  toNumber b = Some y ->
  comparison op x y = Some t ->
  exists rule, comparatorRule C other op = Some rule /\ rule a b = Ok (BooleanLiteral t).
Proof.
  intros HC Ho Ha Hb Ht.
  destruct (numCompareMap_rule other op a b x y t Ho Ht Ha Hb) as (rule & Hget & Happ).
  exists rule. split; [|exact Happ].
  unfold comparatorRule. destruct C; try discriminate HC; exact Hget.
Qed.

(** C8. Take the rule a numeric class [C] registers for a numeric class
    [other] and a token [op], and operands [a] and [b] of numeric classes
    whose values, coerced through the Number constructor (an [int64] is
    widened to [float64]), are [x] and [y]. The Number constructor does
    return these; for an arithmetic token the rule exists and returns the
    host result passed through [C]'s constructor from Number (Integer
    truncating, Double quantising), a value of class [C]; for a comparison
    token the rule exists and returns the Boolean of the host comparison. *)
Theorem numeric_rules (C other : Class) (op : Token) (a b : ValueObject) (x y : float) :
  numericClass C = true ->
  numericClass other = true ->
  toNumber a = Some x ->
  toNumber b = Some y ->
  (call1 numConstructor a = Ok (NumberLiteral x)
   /\ call1 numConstructor b = Ok (NumberLiteral y))
  /\ (forall z, arithmetic op x y = Some z ->
        exists rule r,
          operatorRule C other op = Some rule
          /\ rule a b = Ok r
          /\ fromNumber C z = Some r
          /\ call1 (ConstructorMap_Get (Constructors C) Number) (NumberLiteral z) = Ok r
          /\ Class_of r = C)
  /\ (forall t, comparison op x y = Some t ->
        exists rule,
          comparatorRule C other op = Some rule
          /\ rule a b = Ok (BooleanLiteral t)).
Proof.
  intros HC Ho Ha Hb. split; [|split].
  - split; apply numConstructor_toNumber; assumption.
  - intros z Hz. eapply operatorRule_numeric; eassumption.
  - intros t Ht. eapply comparatorRule_numeric; eassumption.
Qed.

(** With [Operate] as the specification describes it, the same at the level
    of the dispatch: the result of an arithmetic token has the class of the
    left operand, the result of a comparison token is a Boolean. *)
Lemma Operate_numeric (op : Token) (a b : ValueObject) (x y : float) :
  toNumber a = Some x ->
  toNumber b = Some y ->
  (forall z, arithmetic op x y = Some z ->
     exists r, Operate op (Some a) (Some b) = Ok r
               /\ fromNumber (Class_of a) z = Some r /\ Class_of r = Class_of a)
  /\ (forall t, comparison op x y = Some t ->
        Operate op (Some a) (Some b) = Ok (BooleanLiteral t)).
Proof.
  intros Ha Hb.
  assert (numericClass (Class_of a) = true) as HCa by (destruct a; try discriminate Ha; reflexivity).
  assert (numericClass (Class_of b) = true) as HCb by (destruct b; try discriminate Hb; reflexivity).
  assert (isOperableClass (Class_of a) = true) as Hoper
    by (destruct a; try discriminate Ha; reflexivity).
  split.
  - intros z Hz.
    destruct (operatorRule_numeric _ _ _ _ _ _ _ _ HCa HCb Ha Hb Hz)
      as (rule & r & Hget & Happ & Hfrom & _ & Hcl).
    exists r. unfold Operate, findRule. rewrite Hoper, Hget, Happ. auto.
  - intros t Ht.
    destruct (comparatorRule_numeric _ _ _ _ _ _ _ _ HCa HCb Ha Hb Ht) as (rule & Hget & Happ).
    assert (findRule (Class_of a) (Class_of b) op = Some rule) as Hfind.
    { unfold findRule. rewrite Hget.
      destruct a; try discriminate Ha; destruct b; try discriminate Hb;
        destruct op; try discriminate Ht; reflexivity. }
    unfold Operate. rewrite Hoper, Hfind. exact Happ.
Qed.

(** C9. For a string [sl] and a key other than ["lower"] and ["upper"],
    [sl.Get(key)] is the zero [Function] held in an [Object]: it is not nil,
    and its handler is nil. *)
Theorem StringLiteral_Get_other_key (sl key : string) :
  key <> "lower" ->
  key <> "upper" ->
  Value_Get (StringLiteral sl) key = Some (OFunction zeroFunction)
  /\ Value_Get (StringLiteral sl) key <> None
  /\ handler (zeroFunction : Function) = None.
Proof.
  intros Hl Hu. simpl. unfold StringLiteral_Get, StringLiteral_methods.
  rewrite lookup_insert_ne by congruence.
  rewrite lookup_insert_ne by congruence.
  rewrite lookup_empty. repeat split. discriminate.
Qed.

(** Member lookup on a string never reports absence, whatever the key. *)
Lemma StringLiteral_Get_is_Some (sl key : string) :
  is_Some (Value_Get (StringLiteral sl) key).
Proof. simpl. unfold StringLiteral_Get. eauto. Qed.

(** ** Assignments *)

Ltac unfold_St :=
  unfold bindS, liftR, failS, ret, getS, modifyS, onClone, Clone in *; simpl in *.

(** One step of the monad in the goal. *)
Ltac step_St :=
  unfold bindS, liftR, failS, ret, getS, modifyS, onClone, Clone; simpl.

(** X1. An assignment to a single name never completes: whatever the table,
    the operator and the right-hand side, [ResolveAssignmentExpression]
    returns an error or panics, and the table is left as it was. *)
Lemma ResolveAssignmentExpression_single_name (st : SymbolTable) (name : string)
    (Operator : Token) (Init : Expression) :
  let r := ResolveAssignmentExpression (mkAssignmentExpression [name] Operator Init) st in
  isOk (fst r) = false /\ snd r = st.
Proof.
  unfold ResolveAssignmentExpression. unfold_St.
  destruct (bool_decide _); [auto|].
  destruct (asValueObject (local st !! name)) as [object|] eqn:Hobj; [|auto].
  destruct (ResolveValueObject E st Init) as [operand| | |]; simpl; auto.
  destruct (decide (Operator = ASSIGN)).
  - destruct (Construct _ _); simpl; auto.
  - destruct (wrapNodeError _); simpl; auto.
Qed.

(** When the name is bound to a value, is not immutable, and the new value
    is computed, the write-back indexes an empty slice. *)
Lemma ResolveAssignmentExpression_single_name_panics (st : SymbolTable) (name : string)
    (Init : Expression) (object : ValueObject) (operand : option ValueObject)
    (newObject : ValueObject) :
  immutable st !! name = None ->
  asValueObject (local st !! name) = Some object ->
  ResolveValueObject E st Init = Ok operand ->
  Construct (Class_of object) operand = Ok newObject ->
  ResolveAssignmentExpression (mkAssignmentExpression [name] ASSIGN Init) st
  = (Panic "index out of range [0] with length 0", st).
Proof.
  intros Him Hobj Hop Hnew. unfold ResolveAssignmentExpression. unfold_St.
  rewrite Him. rewrite bool_decide_eq_false_2 by (intros [? ?]; discriminate).
  rewrite Hobj, Hop. simpl. rewrite Hnew. reflexivity.
Qed.

(** X2. Validation of an assignment reads the table and leaves it as it was. *)
Lemma ValidateAssignmentExpression_no_write (expr : AssignmentExpression) (st : SymbolTable) :
  snd (ValidateAssignmentExpression expr st) = st.
Proof.
  destruct expr as [[|name rest] Operator Init]; [reflexivity|].
  unfold ValidateAssignmentExpression. unfold_St.
  destruct (bool_decide _); [reflexivity|].
  destruct (selectMembers _ _) as [currentObject| | |]; try reflexivity.
  destruct (asClass currentObject); [|reflexivity].
  destruct (ValidateExpression E st Init); try reflexivity.
  destruct (decide _); reflexivity.
Qed.

(** What validation of [name = init] decides: with the name bound to class
    [class] and the right-hand side of class [operand], it asks
    [ShouldConstruct] for a constructor of [operand] from [class], the
    reverse of the coercion [Construct(object.Class(), operand)] that
    evaluation performs. *)
Lemma ValidateAssignmentExpression_ASSIGN (st : SymbolTable) (name : string)
    (Init : Expression) (class : Class) (operand : option Class) :
  immutable st !! name = None ->
  asClass (local st !! name) = Some class ->
  ValidateExpression E st Init = Ok operand ->
  fst (ValidateAssignmentExpression (mkAssignmentExpression [name] ASSIGN Init) st)
  = wrapNodeError (ShouldConstruct operand (Some class)).
Proof.
  intros Him Hcl Hop. unfold ValidateAssignmentExpression. unfold_St.
  rewrite Him. rewrite bool_decide_eq_false_2 by (intros [? ?]; discriminate).
  rewrite Hcl, Hop. reflexivity.
Qed.

(** ** Loop blocks *)

Lemma ValidateBlockStatement_continue_break (s : BlockStatement) (st : SymbolTable) :
  stmtInit s = NContinueStatement \/ stmtInit s = NBreakStatement ->
  ValidateBlockStatement s st
  = (Fail (NodeError ("unknown block statement type " +:+ nodeTypeName (stmtInit s))), st).
Proof. destruct s as [init]. simpl. intros [-> | ->]; reflexivity. Qed.

Lemma forStatements_app (f : BlockStatement -> St unit) (pre post : list BlockStatement)
    (st : SymbolTable) :
  forStatements f (pre ++ post) st
  = match forStatements f pre st with
    | (Ok _, st') => forStatements f post st'
    | other => other
    end.
Proof.
  revert st. induction pre as [|s pre IH]; intros st; simpl; [reflexivity|].
  unfold bindS. destruct (f s st) as [[[]| | |] st']; try reflexivity. apply IH.
Qed.

(** A loop body with a [continue] or a [break] among its direct children is
    never accepted by [ValidateLoopBlock]: when the statements before it
    validate, the error is [unknown block statement type]. *)
Lemma ValidateLoopBlock_continue_break (pre post : list BlockStatement) (s : BlockStatement)
    (st : SymbolTable) :
  stmtInit s = NContinueStatement \/ stmtInit s = NBreakStatement ->
  isOk (fst (ValidateLoopBlock (mkBlock (pre ++ s :: post)) st)) = false
  /\ forall st', forStatements ValidateBlockStatement pre st = (Ok tt, st') ->
       ValidateLoopBlock (mkBlock (pre ++ s :: post)) st
       = (Fail (NodeError ("unknown block statement type " +:+ nodeTypeName (stmtInit s))), st').
Proof.
  intros Hs. simpl. rewrite forStatements_app.
  destruct (forStatements ValidateBlockStatement pre st) as [[[]| | |] st1] eqn:Hpre;
    simpl; (split; [try reflexivity | intros st' [=]]).
  - unfold bindS. rewrite (ValidateBlockStatement_continue_break _ _ Hs). reflexivity.
  - subst. unfold bindS. rewrite (ValidateBlockStatement_continue_break _ _ Hs). reflexivity.
Qed.

(** [ValidateBlock] refuses them at its own level. *)
Lemma ValidateBlock_continue_break (pre post : list BlockStatement) (s : BlockStatement)
    (st : SymbolTable) :
  stmtInit s = NContinueStatement \/ stmtInit s = NBreakStatement ->
  isOk (fst (ValidateBlock (mkBlock (pre ++ s :: post)) st)) = false.
Proof.
  intros Hs. simpl. revert st. induction pre as [|p pre IH]; intros st; simpl.
  - destruct Hs as [-> | ->]; reflexivity.
  - destruct (stmtInit p); try reflexivity;
      unfold bindS; destruct (ValidateBlockStatement p st) as [[[]| | |] st']; try reflexivity;
      apply IH.
Qed.

(** ** Return coverage *)

(** An [if] is judged to return only when its body returns and it has an
    alternate that returns. *)
Lemma ValidateIfStatementReturns_true (st : SymbolTable) (Condition : Expression)
    (Body : Block) (Alternate : IfAlternate Expression) (shouldReturn : Class) :
  ValidateIfStatementReturns st (mkIfStatement Condition Body Alternate) shouldReturn = Ok true ->
  ValidateBlockReturns st Body shouldReturn = Ok true
  /\ match Alternate with
     | AlternateIf alt => ValidateIfStatementReturns st alt shouldReturn = Ok true
     | AlternateBlock alt => ValidateBlockReturns st alt shouldReturn = Ok true
     | AlternateNone => False
     end.
Proof.
  simpl. destruct (ValidateBlockReturns st Body shouldReturn) as [[]| | |]; simpl;
    try discriminate.
  destruct Alternate; intros H; try discriminate H; auto.
Qed.

(** Without an alternate the answer is never [true]. *)
Lemma ValidateIfStatementReturns_no_alternate (st : SymbolTable) (Condition : Expression)
    (Body : Block) (shouldReturn : Class) :
  ValidateIfStatementReturns st (mkIfStatement Condition Body AlternateNone) shouldReturn
  <> Ok true.
Proof. intros H. apply ValidateIfStatementReturns_true in H. tauto. Qed.

(** C7. Return coverage judges an [if] to return only when its body returns
    and it has an alternate (an [else if] or an [else]) that returns.
    Consequently a function whose declared return type resolves to a class
    [returns] (Integer in the claim) and whose body is the single statement
    [if cond { return one }], with no else, fails [ResolveFunctionBlock]
    with [expected return], whenever the function is otherwise valid: its
    arguments resolve and, in the one table [scopeTable] the body is
    validated in (the clone with the arguments and [self] bound), [cond]
    validates to Boolean and [one] to a class from which [returns] can be
    constructed. The condition and the returned expression may read the
    arguments. *)
Theorem if_without_else_expected_return (st st1 : SymbolTable) (proto : option ValueObject)
    (args : list ArgumentNode) (classes : list Class) (returnType : TypeExpression)
    (cond one : Expression) (returns c1 : Class) :
  let body := mkBlock [mkBlockStatement (NIfStatement
                (mkIfStatement cond (mkBlock [mkBlockStatement (NReturnStatement one)])
                   AlternateNone))] in
  let node := {| Arguments := args; ReturnType := Some returnType; Body := body |} in
  let scopeTable := match proto with
                    | Some _ => setImmutable "self" (ofValue proto) st1
                    | None => st1
                    end in
  ResolveArgumentList args (Clone st) = (Ok classes, st1) ->
  ResolveTypeExpression E scopeTable returnType = Ok returns ->
  ValidateExpression E scopeTable cond = Ok (Some Boolean) ->
  ValidateExpression E scopeTable one = Ok (Some c1) ->
  ShouldConstruct (Some returns) (Some c1) = Ok tt ->
  (forall st' Condition Body Alternate shouldReturn,
     ValidateIfStatementReturns st' (mkIfStatement Condition Body Alternate) shouldReturn
       = Ok true ->
     ValidateBlockReturns st' Body shouldReturn = Ok true
     /\ match Alternate with
        | AlternateIf alt => ValidateIfStatementReturns st' alt shouldReturn = Ok true
        | AlternateBlock alt => ValidateBlockReturns st' alt shouldReturn = Ok true
        | AlternateNone => False
        end)
  /\ ResolveFunctionBlock st node proto = Fail (NodeError "expected return").
Proof.
  intros body node scopeTable Hargs Hrt Hcond Hone Hcons. split.
  - intros. eapply ValidateIfStatementReturns_true; eassumption.
  - unfold ResolveFunctionBlock, node, body. unfold scopeTable, Clone in *.
    destruct proto; unfold setImmutable, ofValue, mapSet in *; simpl in Hrt, Hcond, Hone;
      repeat (progress (step_St; rewrite ?Hargs, ?Hcond, ?Hone, ?Hrt, ?Hcons; simpl));
      reflexivity.
Qed.

(** ** Function binding *)

(** What [ResolveFunctionBlock] builds from a node without a return type. *)
Lemma ResolveFunctionBlock_no_return_type (st : SymbolTable) (node : FunctionBlock)
    (proto : option ValueObject) (fn : Function) :
  ReturnType node = None ->
  ResolveFunctionBlock st node proto = Ok fn ->
  returns fn = None /\ handler fn = Some (blockHandler st node None).
Proof.
  intros Hrt. unfold ResolveFunctionBlock. rewrite Hrt. unfold_St.
  destruct (ResolveArgumentList (Arguments node) st) as [[classes| | |] st1]; simpl;
    try discriminate.
  destruct proto; simpl;
    match goal with
    | |- context [ValidateBlock ?b ?t] =>
        destruct (ValidateBlock b t) as [[[]| | |] st2]; simpl; try discriminate
    end; intros [= <-]; auto.
Qed.

(** C10. For a function that [ResolveFunctionBlock] compiled from a node
    with no declared return type, every successful [Call] returns nil, and
    the value the body produced is dropped: if the arguments are coerced and
    bound and the body evaluates to [obj], whatever [obj] is, the call
    returns nil. *)
Theorem Call_without_return_type (st : SymbolTable) (node : FunctionBlock)
    (proto : option ValueObject) (fn : Function) :
  ReturnType node = None ->
  ResolveFunctionBlock st node proto = Ok fn ->
  (forall fuel args self v, Call fuel fn args self = Ok v -> v = None)
  /\ (forall fuel args args' self execTable st' obj,
        length args = length (arguments fn) ->
        ResolveMethodArguments fn args = Ok args' ->
        prepareExecTable node args' self (Clone st) = (Ok tt, execTable) ->
        ResolveBlock fuel (Body node) execTable = (Ok obj, st') ->
        Call (S fuel) fn args self = Ok None).
Proof.
  intros Hrt Hfn.
  destruct (ResolveFunctionBlock_no_return_type _ _ _ _ Hrt Hfn) as [Hret Hh].
  split.
  - intros [|fuel] args self v; simpl; [discriminate|].
    destruct (negb _); [discriminate|].
    destruct (ResolveMethodArguments fn args) as [args'| | |]; simpl; try discriminate.
    rewrite Hh.
    match goal with |- context [fst ?x] => destruct (fst x) as [obj| | |] end;
      simpl; try discriminate.
    intros [= <-]. reflexivity.
  - intros fuel args args' self execTable st' obj Hlen Hargs Hprep Hbody. simpl.
    rewrite Hlen, Nat.eqb_refl. simpl. rewrite Hargs. simpl. rewrite Hh.
    unfold bindS at 1. rewrite Hprep, Hbody. reflexivity.
Qed.

(** ** Switch blocks *)

Lemma resolveDefaultCases_runBlocks (rb : Block -> St (option ValueObject))
    (cases : list CaseBlock) (st : SymbolTable) :
  resolveDefaultCases rb cases st
  = runBlocks rb (map caseBody (List.filter caseIsDefault cases)) st.
Proof.
  revert st. induction cases as [|[IsDefault Condition Body] rest IH]; intros st; simpl;
    [reflexivity|].
  destruct IsDefault; simpl; [|apply IH].
  unfold bindS. destruct (rb Body st) as [[[v|]| | |] st']; try reflexivity. apply IH.
Qed.

(** The first loop of the switch, when the outcome [m c] of the test of each
    case does not depend on the table: it runs the bodies of the matching
    cases in order until one returns. *)
Lemma resolveCases_runBlocks (rb : Block -> St (option ValueObject)) (target : ValueObject)
    (m : CaseBlock -> bool) (cases : list CaseBlock) (resolved : bool) (st : SymbolTable) :
  (forall c, In c cases -> forall st', caseMatches st' target c = Ok (m c)) ->
  resolveCases rb target cases resolved st
  = (let* r := runBlocks rb (map caseBody (List.filter m cases)) in
     ret (r, match r with
             | Some _ => true
             | None => resolved || negb (Nat.eqb (length (List.filter m cases)) 0)
             end)) st.
Proof.
  revert resolved st.
  induction cases as [|[IsDefault Condition Body] rest IH]; intros resolved st Hm.
  - simpl. unfold bindS, ret. simpl. rewrite orb_false_r. reflexivity.
  - assert (Hrest : forall c, In c rest -> forall st', caseMatches st' target c = Ok (m c))
      by (intros c Hc; apply Hm; right; exact Hc).
    pose proof (Hm _ (or_introl eq_refl) st) as Hc. simpl in Hc. simpl.
    destruct IsDefault.
    + injection Hc as Hc. rewrite <- Hc. simpl. apply IH, Hrest.
    + destruct Condition as [cond|]; [|discriminate Hc].
      unfold bindS at 1, getS, liftR. unfold bindS at 1. unfold bindS at 1.
      destruct (ResolveValueObject E st cond) as [caseCondition| | |]; simpl in Hc;
        try discriminate Hc.
      destruct (wrapNodeError (Operate EQUALS (Some target) caseCondition))
        as [evaluated| | |]; simpl in Hc; try discriminate Hc.
      injection Hc as Hc. rewrite <- Hc.
      destruct (isTrue evaluated); simpl.
      * unfold bindS at 1 2 3.
        destruct (rb Body st) as [[[v|]| | |] st']; try reflexivity.
        rewrite (IH true st' Hrest). unfold bindS, ret.
        destruct (runBlocks rb _ st') as [[[w|]| | |] st'']; try reflexivity.
        simpl. rewrite orb_true_r. reflexivity.
      * apply IH, Hrest.
Qed.

(** Whatever the table does to the tests: after a matching case whose body
    returns nothing, the scan goes on with the cases that follow. *)
Lemma resolveCases_matching_continues (rb : Block -> St (option ValueObject))
    (target : ValueObject) (c : CaseBlock) (rest : list CaseBlock) (resolved : bool)
    (st st' : SymbolTable) :
  caseIsDefault c = false ->
  caseMatches st target c = Ok true ->
  rb (caseBody c) st = (Ok None, st') ->
  resolveCases rb target (c :: rest) resolved st = resolveCases rb target rest true st'.
Proof.
  destruct c as [IsDefault [cond|] Body]; simpl; intros -> Hm Hb; [|discriminate Hm].
  unfold bindS at 1, getS, liftR. unfold bindS at 1. unfold bindS at 1.
  destruct (ResolveValueObject E st cond) as [caseCondition| | |]; simpl in Hm;
    try discriminate Hm.
  destruct (wrapNodeError (Operate EQUALS (Some target) caseCondition))
    as [evaluated| | |]; simpl in Hm; try discriminate Hm.
  injection Hm as ->. unfold bindS at 1. rewrite Hb. reflexivity.
Qed.

(** One step of [ResolveSwitchBlock]. *)
Lemma ResolveSwitchBlock_S (fuel : nat) (Target : Expression) (cases : list CaseBlock) :
  ResolveSwitchBlock (S fuel) (mkSwitchBlock Target cases)
  = (let* st := getS in
     let* target := liftR (ResolveValueObject E st Target) in
     match target with
     | None => liftR (Panic "invalid memory address or nil pointer dereference")
     | Some target =>
         if isOperableClass (Class_of target) then
           let* (returned, resolved) := resolveCases (ResolveBlock fuel) target cases false in
           match returned with
           | Some v => ret (Some v)
           | None =>
               if negb resolved then resolveDefaultCases (ResolveBlock fuel) cases
               else ret None
           end
         else failS InoperableSwitchTargetError
     end).
Proof. reflexivity. Qed.

(** The special case of a switch whose case tests do not depend on the
    table, as when the conditions are literals: the switch is the run of the
    bodies of all its matching cases, or of its default cases when there is
    none. *)
Lemma ResolveSwitchBlock_constant_tests (fuel : nat) (Target : Expression)
    (cases : list CaseBlock) (st : SymbolTable) (target : ValueObject)
    (m : CaseBlock -> bool) :
  ResolveValueObject E st Target = Ok (Some target) ->
  isOperableClass (Class_of target) = true ->
  (forall c, In c cases -> forall st', caseMatches st' target c = Ok (m c)) ->
  ResolveSwitchBlock (S fuel) (mkSwitchBlock Target cases) st
  = match List.filter m cases with
    | [] => runBlocks (ResolveBlock fuel) (map caseBody (List.filter caseIsDefault cases)) st
    | matching => runBlocks (ResolveBlock fuel) (map caseBody matching) st
    end.
Proof.
  intros Htarget Hoper Hm. rewrite ResolveSwitchBlock_S.
  unfold bindS at 1, getS, liftR. unfold bindS at 1. rewrite Htarget, Hoper.
  unfold bindS at 1. rewrite (resolveCases_runBlocks _ _ m _ _ _ Hm).
  destruct (List.filter m cases) as [|c matching] eqn:Hf.
  - simpl. unfold bindS, ret. simpl. apply resolveDefaultCases_runBlocks.
  - unfold bindS, ret. cbv beta match.
    destruct (runBlocks (ResolveBlock fuel) (map caseBody (c :: matching)) st)
      as [[[v|]| | |] st']; reflexivity.
Qed.

(** The two loops of the switch are the scan of [matchingCases]: the flag
    [resolved] says whether the default cases [otherwise] are still to run
    at the end. *)
Lemma resolveCases_matchingCases (rb : Block -> St (option ValueObject))
    (target : ValueObject) (otherwise : St (option ValueObject)) (cases : list CaseBlock)
    (resolved : bool) (st : SymbolTable) :
  (let* (returned, resolved') := resolveCases rb target cases resolved in
   match returned with
   | Some v => ret (Some v)
   | None => if negb resolved' then otherwise else ret None
   end) st
  = matchingCases rb target cases (if resolved then ret None else otherwise) st.
Proof.
  revert resolved st.
  induction cases as [|[IsDefault Condition Body] rest IH]; intros resolved st.
  - simpl. unfold bindS, ret. simpl. destruct resolved; reflexivity.
  - unfold bindS, getS, liftR, ret in IH.
    destruct IsDefault; [repeat (progress step_St); apply IH|].
    destruct Condition as [cond|]; [|reflexivity]. repeat (progress step_St).
    destruct (ResolveValueObject E st cond) as [caseCondition| | |]; simpl;
      try reflexivity.
    destruct (wrapNodeError (Operate EQUALS (Some target) caseCondition))
      as [evaluated| | |]; simpl; try reflexivity.
    destruct (isTrue evaluated); simpl; [|apply IH].
    destruct (rb Body st) as [[[v|]| | |] st']; simpl; try reflexivity.
    apply (IH true st').
Qed.

(** The scan depends on [otherwise] only through what it does to a table. *)
Lemma matchingCases_ext (rb : Block -> St (option ValueObject)) (target : ValueObject)
    (cases : list CaseBlock) (o1 o2 : St (option ValueObject)) :
  (forall st, o1 st = o2 st) ->
  forall st, matchingCases rb target cases o1 st = matchingCases rb target cases o2 st.
Proof.
  intros Ho. induction cases as [|c rest IH]; intros st; simpl; [apply Ho|].
  unfold bindS, getS, liftR.
  destruct (caseMatches st target c) as [[]| | |]; simpl; try reflexivity. apply IH.
Qed.

(** C2, as amended. In a switch whose target is operable, the non-default
    cases are tested in source order through [Operate(==, target, cond)],
    each test in the table the bodies executed before it left; the body of
    every case whose test holds is executed, not of the first one only,
    until a body yields a return value, which ends the switch (as a failing
    test or body does). So a later matching case is executed whenever the
    earlier matching bodies returned nothing. The default cases run only
    when no case matched. The tests may read the table, and a test that is
    not reached does not matter. *)
Theorem ResolveSwitchBlock_runs_matching_cases (fuel : nat) (Target : Expression)
    (cases : list CaseBlock) (st : SymbolTable) (target : ValueObject) :
  ResolveValueObject E st Target = Ok (Some target) ->
  isOperableClass (Class_of target) = true ->
  ResolveSwitchBlock (S fuel) (mkSwitchBlock Target cases) st
  = matchingCases (ResolveBlock fuel) target cases
      (runBlocks (ResolveBlock fuel) (map caseBody (List.filter caseIsDefault cases))) st.
Proof.
  intros Htarget Hoper. rewrite ResolveSwitchBlock_S.
  unfold bindS at 1, getS, liftR. unfold bindS at 1. rewrite Htarget, Hoper.
  rewrite (resolveCases_matchingCases (ResolveBlock fuel) target
             (resolveDefaultCases (ResolveBlock fuel) cases) cases false st).
  cbv iota. apply matchingCases_ext. intros st'. apply resolveDefaultCases_runBlocks.
Qed.

(** ** More on the primitive kernel *)

(** Evaluate the lookup of a constructor map in hypothesis [H]. *)
Ltac constructor_lookup H :=
  unfold ConstructorMap_Get, Constructors, Boolean_Constructors, String_Constructors,
    Number_Constructors, Double_Constructors, Float_Constructors, Integer_Constructors,
    AddConstructor, NewConstructorMap in H;
  simpl ClassName in H; simpl Class_of in H;
  repeat first [ rewrite lookup_insert_eq in H
               | rewrite lookup_insert_ne in H by discriminate
               | rewrite lookup_empty in H ].

(** X3. A constructor that a class of [literals.go] registers for a source
    class, applied to a value of that source class, returns a value of the
    registering class whenever it returns one. *)
Theorem constructor_result_class (c s : Class) (fn : ConstructorFn) (v r : ValueObject) :
  kernelClass c = true ->
  ConstructorMap_Get (Constructors c) s = Some fn ->
  Class_of v = s ->
  fn v = Ok r ->
  Class_of r = c.
Proof.
  intros Hc Hfn Hv Hr. subst s.
  destruct c; try discriminate Hc;
    destruct v; constructor_lookup Hfn; try discriminate Hfn;
    injection Hfn as <-; simpl in Hr; try discriminate Hr;
    injection Hr as <-; reflexivity.
Qed.

(** X4. Coercion to a class other than Double is idempotent: when the
    constructor of [c] for the class of [v] returns [r], the constructor of
    [c] for [c] itself returns [r] on [r]. *)
Theorem constructor_idempotent (c : Class) (v r : ValueObject) :
  kernelClass c = true ->
  c <> Double ->
  call1 (ConstructorMap_Get (Constructors c) (Class_of v)) v = Ok r ->
  call1 (ConstructorMap_Get (Constructors c) c) r = Ok r.
Proof.
  intros Hc Hd Hr.
  destruct c; try discriminate Hc; try (exfalso; apply Hd; reflexivity);
    destruct v; constructor_lookup Hr; simpl in Hr; try discriminate Hr;
    injection Hr as <-; reflexivity.
Qed.

(** X5. Of the sixteen coercions between the numeric classes exactly one
    faults: the constructor of [c] for the class of a numeric value [v]
    panics when [c] is Double and [v] an Integer, and otherwise returns a
    value of class [c]; to Number and to Float the numeric value is kept (an
    Integer widened), and an Integer coerced to Integer is unchanged. *)
Theorem numeric_constructors (c : Class) (v : ValueObject) (x : float) :
  numericClass c = true ->
  toNumber v = Some x ->
  let result := call1 (ConstructorMap_Get (Constructors c) (Class_of v)) v in
  match c, v with
  | Double, IntegerLiteral _ =>
      result = Panic "interface conversion: interface {} is not float64"
  | _, _ =>
      exists r, result = Ok r /\ Class_of r = c
                /\ (c = Number \/ c = Float -> toNumber r = Some x)
                /\ (c = Integer -> Class_of v = Integer -> r = v)
  end.
Proof.
  intros Hc Hv.
  destruct c; try discriminate Hc; destruct v; try discriminate Hv;
    injection Hv as <-; cbv zeta; try reflexivity;
    (eexists; split; [reflexivity|]; split; [reflexivity|]; split;
     [ intros [H|H]; try discriminate H; reflexivity
     | intros H1 H2; try discriminate H1; try discriminate H2; reflexivity ]).
Qed.

Lemma numericClass_name (c : Class) :
  In (ClassName c) ["Number"; "Double"; "Integer"; "Float"] <-> numericClass c = true.
Proof.
  destruct c; simpl; split; intros H; try discriminate H; try reflexivity; try tauto;
    repeat (destruct H as [H|H]; [discriminate H|]); destruct H.
Qed.

Lemma Boolean_ComparableRules_keys (k : string * Token) (rule : OperatorFn) :
  Boolean_ComparableRules !! k = Some rule -> k = ("Boolean", AND) \/ k = ("Boolean", OR).
Proof.
  unfold Boolean_ComparableRules, AddRule, NewRules. intros H.
  repeat (rewrite lookup_insert in H; destruct (decide _) as [<-|_]; [simpl; tauto|]).
  rewrite lookup_empty in H. discriminate H.
Qed.

(** X6. Which rules exist. A class has an operator rule for [(other, op)]
    exactly when both classes are numeric and [op] is one of the six
    arithmetic tokens; it has a comparator rule exactly when both are
    numeric and [op] is one of the six comparison tokens, or both are Boolean
    and [op] is [AND] or [OR]. So no class operates with or compares to a
    String, Nil, Date or DateTime, and no numeric class to a Boolean. *)
Theorem rules_registered (C other : Class) (op : Token) :
  (is_Some (operatorRule C other op)
   <-> numericClass C = true /\ numericClass other = true /\ In op arithmeticTokens)
  /\ (is_Some (comparatorRule C other op)
      <-> (numericClass C = true /\ numericClass other = true /\ In op comparisonTokens)
          \/ (C = Boolean /\ other = Boolean /\ (op = AND \/ op = OR))).
Proof.
  split; split.
  - intros [rule H]. unfold operatorRule in H.
    destruct (OperatorRules C) as [rules|] eqn:HR; [|discriminate H]. simpl in H.
    assert (numericClass C = true /\ exists fn, rules = numOperatorMap fn) as [HC [fn ->]]
      by (destruct C; try discriminate HR; injection HR as <-; eauto).
    apply numOperatorMap_keys in H. unfold numericKeys in H.
    apply in_prod_iff in H as [Hn Hop]. apply numericClass_name in Hn. auto.
  - intros (HC & Ho & Hop).
    destruct C; try discriminate HC; destruct other; try discriminate Ho;
      simpl in Hop; repeat (destruct Hop as [<-|Hop]; [eexists; reflexivity|]); destruct Hop.
  - intros [rule H]. unfold comparatorRule in H.
    destruct (ComparableRules C) as [rules|] eqn:HR; [|discriminate H]. simpl in H.
    destruct C; try discriminate HR; injection HR as <-;
      try (left; split; [reflexivity|];
           apply numCompareMap_keys in H; unfold numericKeys in H;
           apply in_prod_iff in H as [Hn Hop]; apply numericClass_name in Hn; auto).
    right. apply Boolean_ComparableRules_keys in H.
    assert (ClassName other = "Boolean" /\ (op = AND \/ op = OR)) as [Hn Hop]
      by (destruct H as [[= -> ->]|[= -> ->]]; auto).
    split; [reflexivity|]. split; [|exact Hop].
    destruct other; try discriminate Hn; reflexivity.
  - intros [(HC & Ho & Hop)|(-> & -> & Hop)].
    + destruct C; try discriminate HC; destruct other; try discriminate Ho;
        simpl in Hop; repeat (destruct Hop as [<-|Hop]; [eexists; reflexivity|]); destruct Hop.
    + destruct Hop as [-> | ->]; eexists; reflexivity.
Qed.

(** X7. The comparators of Boolean. [AND] and [OR] of two Booleans are the
    conjunction and the disjunction. The right operand is asserted to be a
    Boolean only when it is needed: [false AND b] and [true OR b] return
    without looking at [b], while [true AND b] and [false OR b] panic on a
    [b] that is not a Boolean. *)
Theorem Boolean_comparators :
  exists conj disj,
    comparatorRule Boolean Boolean AND = Some conj
    /\ comparatorRule Boolean Boolean OR = Some disj
    /\ (forall x y, conj (BooleanLiteral x) (BooleanLiteral y) = Ok (BooleanLiteral (x && y))
                    /\ disj (BooleanLiteral x) (BooleanLiteral y) = Ok (BooleanLiteral (x || y)))
    /\ (forall b, conj (BooleanLiteral false) b = Ok (BooleanLiteral false)
                  /\ disj (BooleanLiteral true) b = Ok (BooleanLiteral true))
    /\ (forall b, Class_of b <> Boolean ->
                  isOk (conj (BooleanLiteral true) b) = false
                  /\ isOk (disj (BooleanLiteral false) b) = false).
Proof.
  eexists _, _. split; [reflexivity|]. split; [reflexivity|]. repeat split.
  - destruct x, y; reflexivity.
  - destruct x, y; reflexivity.
  - destruct b; try reflexivity; exfalso; auto.
  - destruct b; try reflexivity; exfalso; auto.
Qed.

(** ** Members and calls *)

(** X8. The two methods of a string. [sl.Get("lower")] and
    [sl.Get("upper")] are functions that take no argument; called with none
    they return the lower-cased and the upper-cased string, and called with
    any argument they fail on the arity. *)
Theorem StringLiteral_methods_call (sl : string) (fuel : nat) (proto : option ValueObject) :
  exists lower upper : Function,
    Value_Get (StringLiteral sl) "lower" = Some (OFunction lower)
    /\ Value_Get (StringLiteral sl) "upper" = Some (OFunction upper)
    /\ Call (S fuel) lower [] proto = Ok (Some (StringLiteral (strings_ToLower sl)))
    /\ Call (S fuel) upper [] proto = Ok (Some (StringLiteral (strings_ToUpper sl)))
    /\ (forall a args, Call (S fuel) lower (a :: args) proto
                       = Fail (arityError 0 (S (length args))))
    /\ (forall a args, Call (S fuel) upper (a :: args) proto
                       = Fail (arityError 0 (S (length args)))).
Proof. eexists _, _. repeat split; reflexivity. Qed.

(** X9. Calling a member a string does not have. For a key other than
    ["lower"] and ["upper"], [sl.Get(key)] is a function whose handler is
    nil: a call without arguments passes the arity check and panics on the
    nil handler, a call with arguments fails on the arity. *)
Theorem StringLiteral_missing_method_call (sl key : string) (fuel : nat)
    (proto : option ValueObject) :
  key <> "lower" ->
  key <> "upper" ->
  exists fn : Function,
    Value_Get (StringLiteral sl) key = Some (OFunction fn)
    /\ Call (S fuel) fn [] proto = Panic "invalid memory address or nil pointer dereference"
    /\ (forall a args, Call (S fuel) fn (a :: args) proto
                       = Fail (arityError 0 (S (length args)))).
Proof.
  intros Hl Hu. exists zeroFunction. split; [|split; [reflexivity|intros; reflexivity]].
  simpl. unfold StringLiteral_Get, StringLiteral_methods.
  rewrite lookup_insert_ne by congruence.
  rewrite lookup_insert_ne by congruence.
  rewrite lookup_empty. reflexivity.
Qed.

(** The static members of [Date] and [DateTime]. ["now"] is a function
    of no argument that returns an instance of the class; every other key is
    absent, and the instances have no member at all. *)
Theorem Date_now (fuel : nat) (proto : option ValueObject) :
  (exists now : Function,
     Class_Get Date "now" = Some (OFunction now)
     /\ returns now = Some Date
     /\ Call (S fuel) now [] proto = Ok (Some DateLiteral))
  /\ (exists now : Function,
        Class_Get DateTime "now" = Some (OFunction now)
        /\ returns now = Some DateTime
        /\ Call (S fuel) now [] proto = Ok (Some DateTimeLiteral))
  /\ (forall key, key <> "now" ->
        Class_Get Date key = None /\ Class_Get DateTime key = None)
  /\ (forall key, Value_Get DateLiteral key = None /\ Value_Get DateTimeLiteral key = None).
Proof.
  split; [eexists; repeat split; reflexivity|].
  split; [eexists; repeat split; reflexivity|].
  split.
  - intros key Hk. simpl. destruct (decide (key = "now")); [contradiction|]. auto.
  - intros key. auto.
Qed.

(** ** Calls and function binding *)

(** The arity check of [Call]: with a number of arguments other than
    the number the function declares, the call fails with
    [expected n arguments, got m], whatever the handler is (also a nil one),
    before any argument is coerced. *)
Theorem Call_wrong_arity (fuel : nat) (fn : Function) (args : list (option ValueObject))
    (proto : option ValueObject) :
  length args <> length (arguments fn) ->
  Call (S fuel) fn args proto = Fail (arityError (length (arguments fn)) (length args)).
Proof.
  intros Hlen. simpl. apply Nat.eqb_neq in Hlen. rewrite Hlen. reflexivity.
Qed.

Lemma constructArguments_sound (methodArgs : list Class) (args args' : list (option ValueObject)) :
  constructArguments methodArgs args = Ok args' ->
  length args' = length args
  /\ shouldConstructArguments methodArgs (map (fmap Class_of) args) = Ok tt.
Proof.
  revert methodArgs args'. induction args as [|arg args IH]; intros methodArgs args' H.
  - destruct methodArgs; simpl in H; injection H as <-; auto.
  - destruct methodArgs as [|argClass methodArgs]; [discriminate H|]. simpl in H. simpl.
    destruct (isGenericObject argClass) eqn:Hg; simpl in H.
    + destruct (constructArguments methodArgs args) as [rest| | |] eqn:Hrest; try discriminate H.
      injection H as <-. destruct (IH _ _ Hrest) as [Hlen Hs]. simpl. auto.
    + destruct (Construct argClass arg) as [v| | |] eqn:Hc; try discriminate H. simpl in H.
      destruct (constructArguments methodArgs args) as [rest| | |] eqn:Hrest; try discriminate H.
      injection H as <-. destruct (IH _ _ Hrest) as [Hlen Hs]. simpl.
      split; [auto|].
      assert (ShouldConstruct (Some argClass) (Class_of <$> arg) = Ok tt) as ->; [|exact Hs].
      unfold Construct in Hc. destruct arg as [w|]; [|discriminate Hc]. simpl.
      unfold ShouldConstruct.
      destruct (ConstructorMap_Get (Constructors argClass) (Class_of w)); [reflexivity|].
      discriminate Hc.
Qed.

(** X10. When [ResolveMethodArguments] coerces the arguments of a call, it
    returns as many values as it was given, and [ValidateMethodArguments]
    accepts the classes of the values it was given: a call the evaluator
    lets through is one the validator lets through. *)
Theorem ResolveMethodArguments_sound (method : Function)
    (args args' : list (option ValueObject)) :
  ResolveMethodArguments method args = Ok args' ->
  length args' = length args
  /\ length args = length (arguments method)
  /\ ValidateMethodArguments method (map (fmap Class_of) args) = Ok tt.
Proof.
  unfold ResolveMethodArguments, ValidateMethodArguments. rewrite length_map.
  destruct (length args =? length (arguments method))%nat eqn:Hlen; simpl; [|discriminate].
  intros H. apply constructArguments_sound in H as [H1 H2].
  apply Nat.eqb_eq in Hlen. auto.
Qed.

Lemma resolveArgumentObject_state (items : list (string * TypeExpression))
    (fields : gmap string Class) (st : SymbolTable) :
  immutable (snd (resolveArgumentObject items fields st)) = immutable st.
Proof.
  revert fields st. induction items as [|[Key Init] items IH]; intros fields st; simpl;
    [reflexivity|].
  unfold bindS, getS, liftR, modifyS.
  destruct (ResolveTypeExpression E st Init); try reflexivity. simpl. rewrite IH. reflexivity.
Qed.

Lemma ResolveArgumentList_length (Items : list ArgumentNode) (st st' : SymbolTable)
    (classes : list Class) :
  ResolveArgumentList Items st = (Ok classes, st') -> length classes = length Items.
Proof.
  revert st st' classes. induction Items as [|item Items IH]; intros st st' classes; simpl.
  - intros [= <- _]. reflexivity.
  - unfold bindS at 1.
    match goal with |- context [match ?m st with _ => _ end] => destruct (m st) as [[c| | |] st1] end;
      try discriminate.
    unfold bindS at 1.
    destruct (ResolveArgumentList Items st1) as [[cs| | |] st2] eqn:Hrest; try discriminate.
    intros [= <- _]. simpl. f_equal. eapply IH. exact Hrest.
Qed.

(** What [ResolveFunctionBlock] returns when it returns a function. *)
Lemma ResolveFunctionBlock_shape (st : SymbolTable) (node : FunctionBlock)
    (proto : option ValueObject) (fn : Function) :
  ResolveFunctionBlock st node proto = Ok fn ->
  length (arguments fn) = length (Arguments node)
  /\ handler fn = Some (blockHandler st node (returns fn))
  /\ (returns fn = None <-> ReturnType node = None).
Proof.
  unfold ResolveFunctionBlock. unfold_St.
  destruct (ResolveArgumentList (Arguments node) st) as [[classes| | |] st1] eqn:Hargs; simpl;
    try discriminate.
  apply ResolveArgumentList_length in Hargs.
  destruct proto; simpl;
    (match goal with
     | |- context [ValidateBlock ?b ?t] =>
         destruct (ValidateBlock b t) as [[[]| | |] st3]; simpl; try discriminate
     end;
     destruct (ReturnType node) as [returnType|]; simpl;
     [ destruct (ResolveTypeExpression E st3 returnType) as [c| | |]; simpl; try discriminate;
       destruct (ValidateBlockReturns st3 (Body node) c) as [[]| | |]; simpl; try discriminate
     | ];
     intros [= <-]; simpl; repeat split; auto; discriminate).
Qed.

(** X11. A function compiled by [ResolveFunctionBlock] declares as many
    arguments as its node lists, has a return class exactly when the node
    gives a return type, and carries the closure over the defining table and
    the node; so a call with another number of arguments fails on the arity
    before the body is touched. *)
Theorem ResolveFunctionBlock_arity (st : SymbolTable) (node : FunctionBlock)
    (proto : option ValueObject) (fn : Function) :
  ResolveFunctionBlock st node proto = Ok fn ->
  length (arguments fn) = length (Arguments node)
  /\ handler fn = Some (blockHandler st node (returns fn))
  /\ (returns fn = None <-> ReturnType node = None)
  /\ (forall fuel args self,
        length args <> length (Arguments node) ->
        Call (S fuel) fn args self
        = Fail (arityError (length (Arguments node)) (length args))).
Proof.
  intros Hfn. destruct (ResolveFunctionBlock_shape _ _ _ _ Hfn) as (Hlen & Hh & Hr).
  repeat split; try assumption; try apply Hr.
  intros fuel args self Hne. simpl. rewrite Hlen.
  apply Nat.eqb_neq in Hne. rewrite Hne. reflexivity.
Qed.

Lemma Construct_kernel_class (c : Class) (v : option ValueObject) (r : ValueObject) :
  kernelClass c = true ->
  Construct c v = Ok r ->
  Class_of r = c.
Proof.
  intros Hc Hr. unfold Construct in Hr. destruct v as [v|]; [|discriminate Hr].
  destruct c; try discriminate Hc;
    destruct v; constructor_lookup Hr; simpl in Hr; try discriminate Hr;
    injection Hr as <-; reflexivity.
Qed.

(** X12. A function compiled with a return type that resolves to a class of
    [literals.go] returns, from every successful call, a value of that
    class: the value the body produced is passed through the constructor of
    the declared class, never returned as it is and never dropped. *)
Theorem Call_with_return_type (st : SymbolTable) (node : FunctionBlock)
    (proto : option ValueObject) (fn : Function) (c : Class) :
  ResolveFunctionBlock st node proto = Ok fn ->
  returns fn = Some c ->
  kernelClass c = true ->
  forall fuel args self v,
    Call fuel fn args self = Ok v ->
    exists r, v = Some r /\ Class_of r = c.
Proof.
  intros Hfn Hret Hk fuel args self v.
  destruct (ResolveFunctionBlock_shape _ _ _ _ Hfn) as (_ & Hh & _). rewrite Hret in Hh.
  destruct fuel as [|fuel]; simpl; [discriminate|].
  destruct (negb _); [discriminate|].
  destruct (ResolveMethodArguments fn args) as [args'| | |]; simpl; try discriminate.
  rewrite Hh.
  match goal with |- context [fst ?x] => destruct (fst x) as [obj| | |] end;
    simpl; try discriminate.
  destruct (Construct c obj) as [r| | |] eqn:Hc; simpl; try discriminate.
  intros [= <-]. exists r. split; [reflexivity|].
  eapply Construct_kernel_class; eassumption.
Qed.

(** ** Declarations and the table *)

Lemma setLocal_same (k : string) (st : SymbolTable) : setLocal k (local st !! k) st = st.
Proof.
  destruct st as [l i]. unfold setLocal, mapSet. simpl.
  destruct (l !! k) as [o|] eqn:Hk; f_equal.
  - apply insert_id. exact Hk.
  - apply delete_id. exact Hk.
Qed.

Lemma local_setLocal (k : string) (o : option Object) (st : SymbolTable) :
  local (setLocal k o st) !! k = o
  /\ (forall j, j <> k -> local (setLocal k o st) !! j = local st !! j)
  /\ immutable (setLocal k o st) = immutable st.
Proof.
  unfold setLocal, mapSet. simpl. destruct o as [x|]; repeat split.
  - apply lookup_insert_eq.
  - intros j Hj. apply lookup_insert_ne. congruence.
  - apply lookup_delete_eq.
  - intros j Hj. apply lookup_delete_ne. congruence.
Qed.

(** X13. Declaring a name that is bound, in [immutable] or in [local],
    fails in both passes and leaves the table as it was; the error names the
    variable. *)
Theorem declaration_of_bound_name_fails (st : SymbolTable) (Name : string)
    (Init : Expression) (shouldEvaluate : bool) :
  is_Some (immutable st !! Name) \/ is_Some (local st !! Name) ->
  exists msg,
    ResolveDeclarationStatement (mkDeclarationStatement Name Init) shouldEvaluate st
    = (Fail (NodeError (msg +:+ Name)), st)
    /\ (msg = "cannot reassign immutable variable " \/ msg = "cannot redeclare variable ").
Proof.
  intros H. unfold ResolveDeclarationStatement. unfold_St.
  destruct (bool_decide (is_Some (immutable st !! Name))) eqn:Hi.
  - eexists. split; [reflexivity|]. auto.
  - destruct H as [H|H]; [apply bool_decide_eq_false in Hi; contradiction|].
    rewrite (bool_decide_eq_true_2 _ H). eexists. split; [reflexivity|]. auto.
Qed.

(** X14. Declaring a free name binds it and nothing else. When [Name] is
    bound in neither map, evaluation binds it to the value of the
    initialiser and validation to its class; every other name of [local]
    and the whole of [immutable] are as before. A nil value or class leaves
    the name unbound. *)
Theorem declaration_binds (st : SymbolTable) (Name : string) (Init : Expression)
    (obj : option ValueObject) (class : option Class) :
  immutable st !! Name = None ->
  local st !! Name = None ->
  ResolveValueObject E st Init = Ok obj ->
  ValidateExpression E st Init = Ok class ->
  let evaluated := ResolveDeclarationStatement (mkDeclarationStatement Name Init) true st in
  let validated := ResolveDeclarationStatement (mkDeclarationStatement Name Init) false st in
  (fst evaluated = Ok tt
   /\ local (snd evaluated) !! Name = ofValue obj
   /\ (forall k, k <> Name -> local (snd evaluated) !! k = local st !! k)
   /\ immutable (snd evaluated) = immutable st)
  /\ (fst validated = Ok tt
      /\ local (snd validated) !! Name = ofClass class
      /\ (forall k, k <> Name -> local (snd validated) !! k = local st !! k)
      /\ immutable (snd validated) = immutable st).
Proof.
  intros Hi Hl Hv Hc. unfold ResolveDeclarationStatement. unfold_St.
  rewrite Hi, Hl. rewrite bool_decide_eq_false_2 by (intros [? ?]; discriminate).
  rewrite Hv, Hc. simpl.
  split; (split; [reflexivity|]; apply local_setLocal).
Qed.

(** X15. An assignment never rebinds a name: whatever the selector, the
    operator and the outcome, [ResolveAssignmentExpression] leaves the table
    as it was. The write-back stores the object that [local] already held
    under the first name; the new value reaches the program only through
    [Set], which no value of [literals.go] acts on. *)
Theorem ResolveAssignmentExpression_table_unchanged (expr : AssignmentExpression)
    (st : SymbolTable) :
  snd (ResolveAssignmentExpression expr st) = st.
Proof.
  destruct expr as [[|name rest] Operator Init]; [reflexivity|].
  unfold ResolveAssignmentExpression. unfold_St.
  destruct (bool_decide _); [reflexivity|].
  destruct (selectMembers (local st !! name) rest) as [originalObject| | |]; try reflexivity.
  destruct (asValueObject originalObject) as [object|]; [|reflexivity].
  destruct (ResolveValueObject E st Init) as [operand| | |]; try reflexivity.
  destruct (decide (Operator = ASSIGN)).
  - destruct (Construct (Class_of object) operand) as [a| | |]; try reflexivity.
    destruct (eval a (local st !! name) rest); try reflexivity. apply setLocal_same.
  - destruct (wrapNodeError _) as [a| | |]; try reflexivity.
    destruct (eval a (local st !! name) rest); try reflexivity. apply setLocal_same.
Qed.

(** X16. A name held in [immutable] cannot be assigned or declared: both
    passes fail with [cannot reassign immutable variable], before the
    right-hand side is looked at, and the table is as before. *)
Theorem immutable_name_is_protected (st : SymbolTable) (name : string) (rest : list string)
    (Operator : Token) (Init : Expression) (shouldEvaluate : bool) :
  is_Some (immutable st !! name) ->
  let refused := (Fail (NodeError ("cannot reassign immutable variable " +:+ name)), st) in
  ResolveAssignmentExpression (mkAssignmentExpression (name :: rest) Operator Init) st = refused
  /\ ValidateAssignmentExpression (mkAssignmentExpression (name :: rest) Operator Init) st
     = refused
  /\ ResolveDeclarationStatement (mkDeclarationStatement name Init) shouldEvaluate st = refused.
Proof.
  intros H. unfold ResolveAssignmentExpression, ValidateAssignmentExpression,
    ResolveDeclarationStatement. unfold_St.
  rewrite (bool_decide_eq_true_2 _ H). auto.
Qed.

(** ** Loops and blocks *)

(** X17. A [for] statement works on a clone of the table and drops it: in
    both passes, whatever the clause and the body do and however the
    statement ends, the table of the enclosing scope is as before. What the
    body binds, the loop variables included, does not outlive the loop. *)
Theorem for_statement_leaves_table (fuel : nat) (expr : ForStatement) (st : SymbolTable) :
  snd (ResolveForStatement fuel expr st) = st
  /\ snd (ValidateForStatement expr st) = st.
Proof.
  split.
  - destruct fuel as [|fuel]; [reflexivity|].
    destruct expr as [[Init Condition Update|Index Value Target|] Body]; simpl;
      try reflexivity.
    unfold bindS, getS, liftR.
    destruct (ResolveValueObject E st Target) as [[[]|]| | |]; reflexivity.
  - destruct expr as [Condition Body]. reflexivity.
Qed.

Lemma forLoopBlock_continue (Condition : Expression) (Update : ForUpdate)
    (rest : list BlockStatement) (st : SymbolTable) :
  ResolveValueObject E st Condition = Ok (Some (BooleanLiteral true)) ->
  forall fuel,
    forLoopBlock fuel Condition Update (mkBlock (mkBlockStatement NContinueStatement :: rest)) st
    = (OutOfFuel, st).
Proof.
  intros Hcond fuel. induction fuel as [|fuel IH]; [reflexivity|].
  simpl. unfold bindS, getS, liftR, ret. rewrite Hcond. simpl. exact IH.
Qed.

(** X18. In a [for] loop a [continue] goes back to the condition without
    running the update. So when the initialiser succeeds, the condition
    holds in the table it leaves, and the body starts with [continue], the
    loop never ends, whatever the update is: no amount of fuel yields an
    outcome. *)
Theorem for_continue_never_ends (Init : option DeclarationStatement) (Condition : Expression)
    (Update : ForUpdate) (rest : list BlockStatement) (st st1 : SymbolTable) :
  forInit Init st = (Ok tt, st1) ->
  ResolveValueObject E st1 Condition = Ok (Some (BooleanLiteral true)) ->
  forall fuel,
    ResolveForStatement fuel
      (mkForStatement (ForCondition Init Condition Update)
         (mkBlock (mkBlockStatement NContinueStatement :: rest))) st
    = (OutOfFuel, st).
Proof.
  intros Hinit Hcond [|fuel]; [reflexivity|].
  simpl. unfold onClone, Clone. f_equal.
  unfold bindS at 1. fold (forInit Init). rewrite Hinit.
  rewrite (forLoopBlock_continue _ _ _ _ Hcond). reflexivity.
Qed.

(** One step of the evaluator, for the proofs below. *)
Lemma ResolveBlock_S (fuel : nat) (expr : Block) :
  ResolveBlock (S fuel) expr = runStatements (ResolveBlockStatement fuel) (Statements expr).
Proof. reflexivity. Qed.

Lemma ResolveIfStatement_true (fuel : nat) (Condition : Expression) (Body : Block)
    (Alternate : IfAlternate Expression) (st : SymbolTable) :
  ResolveValueObject E st Condition = Ok (Some (BooleanLiteral true)) ->
  ResolveIfStatement (S fuel) (mkIfStatement Condition Body Alternate) st
  = ResolveBlock fuel Body st.
Proof. intros H. simpl. unfold bindS, getS, liftR. rewrite H. reflexivity. Qed.

Lemma ResolveWhileStatement_true (fuel : nat) (Condition : Expression) (Body : Block)
    (st : SymbolTable) :
  ResolveValueObject E st Condition = Ok (Some (BooleanLiteral true)) ->
  ResolveWhileStatement (S fuel) (mkWhileStatement Condition Body) st
  = (let* exit := runLoopStatements (ResolveBlockStatement fuel) (Statements Body) in
     match exit with
     | BodyDone | BodyContinue => ResolveWhileStatement fuel (mkWhileStatement Condition Body)
     | BodyBreak => ret None
     | BodyReturn v => ret (Some v)
     end) st.
Proof. intros H. simpl. unfold bindS at 1 2, getS, liftR. rewrite H. reflexivity. Qed.

Lemma ResolveWhileStatement_false (fuel : nat) (Condition : Expression) (Body : Block)
    (st : SymbolTable) :
  ResolveValueObject E st Condition = Ok (Some (BooleanLiteral false)) ->
  ResolveWhileStatement (S fuel) (mkWhileStatement Condition Body) st = (Ok None, st).
Proof. intros H. simpl. unfold bindS, getS, liftR. rewrite H. reflexivity. Qed.

Lemma ResolveBlockStatement_If (fuel : nat) (s : IfStatement) :
  ResolveBlockStatement (S fuel) (mkBlockStatement (NIfStatement s)) = ResolveIfStatement fuel s.
Proof. reflexivity. Qed.

Lemma ResolveBlockStatement_While (fuel : nat) (s : WhileStatement) :
  ResolveBlockStatement (S fuel) (mkBlockStatement (NWhileStatement s))
  = ResolveWhileStatement fuel s.
Proof. reflexivity. Qed.

Lemma ResolveBlockStatement_loop_control (fuel : nat) (s : BlockStatement) (st : SymbolTable) :
  isLoopControl s = true ->
  ResolveBlockStatement (S fuel) s st
  = (Fail (NodeError ("unknown block statement type " +:+ nodeTypeName (stmtInit s))), st).
Proof.
  destruct s as [init]. unfold isLoopControl. simpl stmtInit. intros Hs.
  destruct init; try discriminate Hs; reflexivity.
Qed.

(** X19. [continue] and [break] are honoured only as direct children of a
    loop body. Inside an [if] whose condition holds they are evaluated as
    statements, which fails with [unknown block statement type]; the error
    ends the enclosing [while] loop. *)
Theorem nested_loop_control_fails (fuel : nat) (Condition : Expression)
    (s : BlockStatement) (rest : list BlockStatement) (Alternate : IfAlternate Expression)
    (st : SymbolTable) :
  isLoopControl s = true ->
  ResolveValueObject E st Condition = Ok (Some (BooleanLiteral true)) ->
  let inner := mkIfStatement Condition (mkBlock (s :: rest)) Alternate in
  let err := NodeError ("unknown block statement type " +:+ nodeTypeName (stmtInit s)) in
  ResolveIfStatement (S (S (S fuel))) inner st = (Fail err, st)
  /\ ResolveWhileStatement (S (S (S (S (S fuel)))))
       (mkWhileStatement Condition (mkBlock [mkBlockStatement (NIfStatement inner)])) st
     = (Fail err, st).
Proof.
  intros Hs Hcond inner err.
  assert (ResolveIfStatement (S (S (S fuel))) inner st = (Fail err, st)) as Hif.
  { unfold inner. rewrite (ResolveIfStatement_true _ _ _ _ _ Hcond), ResolveBlock_S.
    cbn [Statements runStatements]. unfold bindS.
    rewrite (ResolveBlockStatement_loop_control _ _ _ Hs). reflexivity. }
  split; [exact Hif|].
  rewrite (ResolveWhileStatement_true _ _ _ _ Hcond).
  cbn [Statements runLoopStatements stmtInit]. unfold bindS at 1. unfold bindS at 1.
  rewrite ResolveBlockStatement_If, Hif. reflexivity.
Qed.

Lemma runStatements_app (f : BlockStatement -> St (option ValueObject))
    (pre post : list BlockStatement) (st : SymbolTable) :
  runStatements f (pre ++ post) st
  = match runStatements f pre st with
    | (Ok None, st') => runStatements f post st'
    | other => other
    end.
Proof.
  revert st. induction pre as [|s pre IH]; intros st; simpl; [reflexivity|].
  unfold bindS. destruct (f s st) as [[[v|]| | |] st']; try reflexivity. apply IH.
Qed.

(** X20. Blocks compose. Evaluating the statements [pre] followed by
    [post] is evaluating [pre] and, only when it ends without a return
    value and without an error, evaluating [post] in the table [pre] left.
    After a statement that returned a value, or failed, nothing of the rest
    of the block is evaluated. *)
Theorem ResolveBlock_app (fuel : nat) (pre post : list BlockStatement) (st : SymbolTable) :
  ResolveBlock fuel (mkBlock (pre ++ post)) st
  = match ResolveBlock fuel (mkBlock pre) st with
    | (Ok None, st') => ResolveBlock fuel (mkBlock post) st'
    | other => other
    end.
Proof.
  destruct fuel as [|fuel]; [reflexivity|]. rewrite !ResolveBlock_S. apply runStatements_app.
Qed.

(** X21. A [return] whose expression evaluates to nil does not end the
    block: evaluation goes on with the statements after it. A [return] of a
    value ends the block with that value and the table as it is. *)
Theorem return_nil_falls_through (fuel : nat) (Init : Expression)
    (rest : list BlockStatement) (st : SymbolTable) (v : option ValueObject) :
  ResolveValueObject E st Init = Ok v ->
  ResolveBlock (S (S fuel)) (mkBlock (mkBlockStatement (NReturnStatement Init) :: rest)) st
  = match v with
    | Some w => (Ok (Some w), st)
    | None => ResolveBlock (S (S fuel)) (mkBlock rest) st
    end.
Proof.
  intros Hv. rewrite !ResolveBlock_S. cbn [Statements runStatements].
  unfold bindS at 1.
  assert (ResolveBlockStatement (S fuel) (mkBlockStatement (NReturnStatement Init)) st
          = (Ok v, st)) as ->
    by (simpl; unfold bindS, getS, liftR; rewrite Hv; reflexivity).
  destruct v; reflexivity.
Qed.

(** ** The immutable bindings *)

Lemma keeps_ret {A} (a : A) : keepsImmutable (ret a).
Proof. intros st. reflexivity. Qed.

Lemma keeps_liftR {A} (r : R A) : keepsImmutable (liftR r).
Proof. intros st. reflexivity. Qed.

Lemma keeps_failS {A} (e : error) : keepsImmutable (@failS A e).
Proof. intros st. reflexivity. Qed.

Lemma keeps_getS : keepsImmutable getS.
Proof. intros st. reflexivity. Qed.

Lemma keeps_setLocal (k : string) (o : option Object) : keepsImmutable (modifyS (setLocal k o)).
Proof. intros st. reflexivity. Qed.

Lemma keeps_onClone {A} (m : St A) : keepsImmutable (onClone m).
Proof. intros st. reflexivity. Qed.

Lemma keeps_bind {A B} (m : St A) (k : A -> St B) :
  keepsImmutable m -> (forall a, keepsImmutable (k a)) -> keepsImmutable (bindS m k).
Proof.
  intros Hm Hk st. unfold bindS. specialize (Hm st).
  destruct (m st) as [[a| | |] st']; simpl in *; try exact Hm.
  rewrite Hk. exact Hm.
Qed.

(** Break a goal [keepsImmutable m] down along the shape of [m]. *)
Ltac keeps :=
  repeat first
    [ apply keeps_ret | apply keeps_liftR | apply keeps_failS | apply keeps_getS
    | apply keeps_setLocal | apply keeps_onClone
    | assumption
    | apply keeps_bind; [|intros]
    | match goal with
      | |- keepsImmutable (match ?x with _ => _ end) => destruct x
      | |- keepsImmutable (if ?x then _ else _) => destruct x
      | H : forall s, keepsImmutable (?f s) |- keepsImmutable (?f _) => apply H
      end ].

Lemma keeps_ResolveDeclarationStatement (d : DeclarationStatement) (b : bool) :
  keepsImmutable (ResolveDeclarationStatement d b).
Proof. destruct d. unfold ResolveDeclarationStatement. keeps. Qed.

Lemma keeps_ResolveAssignmentExpression (a : AssignmentExpression) :
  keepsImmutable (ResolveAssignmentExpression a).
Proof. destruct a as [[|name rest] Operator Init]; unfold ResolveAssignmentExpression; keeps. Qed.

Lemma keeps_runStatements (f : BlockStatement -> St (option ValueObject))
    (stmts : list BlockStatement) :
  (forall s, keepsImmutable (f s)) -> keepsImmutable (runStatements f stmts).
Proof. intros Hf. induction stmts as [|s stmts IH]; simpl; keeps. Qed.

Lemma keeps_runLoopStatements (f : BlockStatement -> St (option ValueObject))
    (stmts : list BlockStatement) :
  (forall s, keepsImmutable (f s)) -> keepsImmutable (runLoopStatements f stmts).
Proof. intros Hf. induction stmts as [|s stmts IH]; simpl; keeps. Qed.

Lemma keeps_resolveCases (rb : Block -> St (option ValueObject)) (target : ValueObject)
    (cases : list CaseBlock) (resolved : bool) :
  (forall b, keepsImmutable (rb b)) -> keepsImmutable (resolveCases rb target cases resolved).
Proof.
  intros Hrb. revert resolved.
  induction cases as [|[IsDefault Condition Body] cases IH]; intros resolved; simpl; keeps;
    apply IH.
Qed.

Lemma keeps_resolveDefaultCases (rb : Block -> St (option ValueObject))
    (cases : list CaseBlock) :
  (forall b, keepsImmutable (rb b)) -> keepsImmutable (resolveDefaultCases rb cases).
Proof.
  intros Hrb. induction cases as [|[IsDefault Condition Body] cases IH]; simpl; keeps.
Qed.

Ltac keeps_all :=
  repeat first
    [ progress keeps
    | apply keeps_ResolveDeclarationStatement
    | apply keeps_ResolveAssignmentExpression
    | apply keeps_runStatements
    | apply keeps_runLoopStatements
    | apply keeps_resolveCases
    | apply keeps_resolveDefaultCases ].

Lemma keeps_evaluator (fuel : nat) :
  (forall s, keepsImmutable (ResolveBlockStatement fuel s))
  /\ (forall b, keepsImmutable (ResolveBlock fuel b))
  /\ (forall s, keepsImmutable (ResolveIfStatement fuel s))
  /\ (forall s, keepsImmutable (ResolveWhileStatement fuel s))
  /\ (forall c u b, keepsImmutable (forLoopBlock fuel c u b))
  /\ (forall s, keepsImmutable (ResolveForStatement fuel s))
  /\ (forall s, keepsImmutable (ResolveSwitchBlock fuel s))
  /\ (forall e, keepsImmutable (ResolveGuardStatement fuel e)).
Proof.
  induction fuel as [|fuel (IHstmt & IHblock & IHif & IHwhile & IHloop & IHfor & IHswitch & IHguard)].
  - repeat split; intros; simpl; keeps.
  - repeat split.
    + intros [init]. simpl. destruct init; unfold unknownStatement; keeps_all.
    + intros b. simpl. keeps_all.
    + intros [Condition Body Alternate]. simpl. keeps_all.
    + intros [Condition Body]. simpl. keeps_all.
    + intros c u b. simpl. keeps_all; apply IHloop.
    + intros [[Init Condition Update|Index Value Target|] Body]; simpl; keeps_all.
    + intros [Target cases]. simpl. keeps_all.
    + intros e. simpl. keeps_all.
Qed.

(** X22. Evaluation never touches [immutable]: whatever a statement or a
    block does and however it ends, the immutable bindings of the table it
    ran on are as before. Only a call binds [self], and it does so on the
    clone the body runs on. *)
Theorem evaluation_keeps_immutable (fuel : nat) (st : SymbolTable) :
  (forall stmt, immutable (snd (ResolveBlockStatement fuel stmt st)) = immutable st)
  /\ (forall block, immutable (snd (ResolveBlock fuel block st)) = immutable st).
Proof.
  destruct (keeps_evaluator fuel) as (Hstmt & Hblock & _).
  split; intros x; [apply Hstmt | apply Hblock].
Qed.

(** ** Validation *)

Lemma forStatementsOutsideLoop_no_control (f : BlockStatement -> St unit)
    (stmts : list BlockStatement) :
  forallb (fun s => negb (isLoopControl s)) stmts = true ->
  forStatementsOutsideLoop f stmts = forStatements f stmts.
Proof.
  induction stmts as [|s stmts IH]; simpl; [reflexivity|].
  intros H. apply andb_prop in H as [Hs Hrest]. rewrite (IH Hrest).
  unfold isLoopControl in Hs. destruct (stmtInit s); try discriminate Hs; reflexivity.
Qed.

(** X23. On a block with no [continue] and no [break] among its direct
    children, [ValidateBlock] and [ValidateLoopBlock] are the same function:
    same outcome, same table. *)
Theorem ValidateBlock_is_ValidateLoopBlock (stmts : list BlockStatement) (st : SymbolTable) :
  forallb (fun s => negb (isLoopControl s)) stmts = true ->
  ValidateBlock (mkBlock stmts) st = ValidateLoopBlock (mkBlock stmts) st.
Proof.
  intros H. simpl. rewrite (forStatementsOutsideLoop_no_control _ _ H). reflexivity.
Qed.

Lemma validateCases_withBody (st : SymbolTable) (comparable : OperatorRulesMap)
    (body : Block) (cases : list CaseBlock) (hasDefaultBlock : bool) :
  validateCases st comparable (map (withBody body) cases) hasDefaultBlock
  = validateCases st comparable cases hasDefaultBlock.
Proof.
  revert hasDefaultBlock.
  induction cases as [|[IsDefault Condition Body] cases IH]; intros hasDefaultBlock; simpl;
    [reflexivity|].
  destruct IsDefault.
  - destruct hasDefaultBlock; [reflexivity|apply IH].
  - destruct Condition as [cond|]; [|reflexivity].
    destruct (ValidateExpression E st cond) as [[caseClass|]| | |]; simpl; try reflexivity.
    destruct (Rules_Get comparable caseClass EQUALS); [apply IH|reflexivity].
Qed.

(** X24. Validation of a switch never looks into the case bodies: replacing
    every body by any block leaves the outcome of [ValidateBlockStatement]
    on the switch unchanged, and the table is as before. Statements inside
    a case are not validated. *)
Theorem ValidateSwitchBlock_ignores_bodies (Target : Expression) (cases : list CaseBlock)
    (body : Block) (st : SymbolTable) :
  ValidateBlockStatement
    (mkBlockStatement (NSwitchBlock (mkSwitchBlock Target (map (withBody body) cases)))) st
  = ValidateBlockStatement (mkBlockStatement (NSwitchBlock (mkSwitchBlock Target cases))) st
  /\ snd (ValidateBlockStatement
            (mkBlockStatement (NSwitchBlock (mkSwitchBlock Target cases))) st) = st.
Proof.
  simpl. unfold bindS, getS, liftR, failS.
  destruct (ValidateExpression E st Target) as [target| | |]; simpl; auto.
  destruct (target ≫= ComparableRules) as [comparable|]; simpl; auto.
  rewrite validateCases_withBody. auto.
Qed.

(** X25. At run time a switch needs a numeric target. [ResolveSwitchBlock]
    tests the class of the target for [OperatorRules], which of the classes
    of [literals.go] only Number, Double, Float and Integer have: on a
    Boolean, String, Nil, Date or DateTime target it fails with
    [InoperableSwitchTargetError] before any case is looked at. Validation
    tests for [ComparableRules] instead, which Boolean has, so it accepts a
    switch on a Boolean with a default case only. *)
Theorem switch_target_must_be_numeric (fuel : nat) (Target : Expression)
    (cases : list CaseBlock) (st : SymbolTable) (target : ValueObject) :
  ResolveValueObject E st Target = Ok (Some target) ->
  primitive target = true ->
  numericClass (Class_of target) = false ->
  ResolveSwitchBlock (S fuel) (mkSwitchBlock Target cases) st
    = (Fail InoperableSwitchTargetError, st)
  /\ (forall body,
        ValidateExpression E st Target = Ok (Some Boolean) ->
        ValidateSwitchBlock (mkSwitchBlock Target [mkCaseBlock true None body]) st
        = (Ok tt, st)).
Proof.
  intros Ht Hp Hn. split.
  - rewrite ResolveSwitchBlock_S. unfold bindS, getS, liftR, failS. rewrite Ht.
    destruct target; try discriminate Hp; try discriminate Hn; reflexivity.
  - intros body Hv. unfold ValidateSwitchBlock, bindS, getS, liftR. rewrite Hv. reflexivity.
Qed.

(** ** More on return coverage *)

Lemma anyStatementReturns_app (f : BlockStatement -> R bool) (pre post : list BlockStatement) :
  anyStatementReturns f (pre ++ post)
  = match anyStatementReturns f pre with
    | Ok false => anyStatementReturns f post
    | other => other
    end.
Proof.
  induction pre as [|s pre IH]; simpl; [reflexivity|].
  destruct (f s) as [[]| | |]; simpl; try reflexivity. exact IH.
Qed.

(** X26. Return coverage stops at the first statement that returns: the
    answer for [pre] followed by [post] is the answer for [pre] unless that
    is [false], and only then the answer for [post]. What follows a
    returning statement is not examined, so a [return] of the wrong class
    after it goes unreported. *)
Theorem ValidateBlockReturns_app (st : SymbolTable) (pre post : list BlockStatement)
    (shouldReturn : Class) :
  ValidateBlockReturns st (mkBlock (pre ++ post)) shouldReturn
  = match ValidateBlockReturns st (mkBlock pre) shouldReturn with
    | Ok false => ValidateBlockReturns st (mkBlock post) shouldReturn
    | other => other
    end.
Proof. simpl. apply anyStatementReturns_app. Qed.

Lemma allCasesReturn_true (f : Block -> R bool) (cases : list CaseBlock) :
  allCasesReturn f cases = Ok true ->
  forall c, In c cases -> caseIsDefault c = false -> f (caseBody c) = Ok true.
Proof.
  induction cases as [|[IsDefault Condition Body] cases IH]; simpl; intros H c Hc Hd;
    [destruct Hc|].
  destruct IsDefault.
  - destruct Hc as [<-|Hc]; [discriminate Hd|]. apply IH; assumption.
  - destruct (f Body) as [[]| | |] eqn:Hb; simpl in H; try discriminate H.
    destruct Hc as [<-|Hc]; [exact Hb|]. apply IH; assumption.
Qed.

Lemma defaultCaseReturns_true (f : Block -> R bool) (cases : list CaseBlock) :
  defaultCaseReturns f cases = Ok true ->
  exists c, In c cases /\ caseIsDefault c = true /\ f (caseBody c) = Ok true.
Proof.
  induction cases as [|[IsDefault Condition Body] cases IH]; simpl; intros H;
    [discriminate H|].
  destruct IsDefault.
  - eexists. split; [left; reflexivity|]. auto.
  - destruct (IH H) as (c & Hc & Hd & Hb). exists c. auto.
Qed.

(** X27. A switch is judged to return only when it has a default case whose
    body returns and the body of every non-default case returns. A switch
    without a default case is never judged to return. *)
Theorem ValidateSwitchBlockReturns_true (st : SymbolTable) (Target : Expression)
    (cases : list CaseBlock) (shouldReturn : Class) :
  ValidateSwitchBlockReturns st (mkSwitchBlock Target cases) shouldReturn = Ok true ->
  (exists c, In c cases /\ caseIsDefault c = true
             /\ ValidateBlockReturns st (caseBody c) shouldReturn = Ok true)
  /\ (forall c, In c cases -> caseIsDefault c = false ->
        ValidateBlockReturns st (caseBody c) shouldReturn = Ok true).
Proof.
  simpl.
  destruct (allCasesReturn _ cases) as [[]| | |] eqn:Hall; simpl; try discriminate.
  intros Hd. split.
  - apply defaultCaseReturns_true in Hd. exact Hd.
  - intros c Hc Hn. exact (allCasesReturn_true _ _ Hall c Hc Hn).
Qed.

(** X28. Return coverage takes a loop to return when its body does, although
    the body may never run. When the body of a [while] is judged to return,
    so is the block made of the loop; yet when the condition is false that
    block evaluates to nil, so a function made of it passes the coverage
    check and produces no value. *)
Theorem while_coverage_without_value (fuel : nat) (st : SymbolTable) (Condition : Expression)
    (Body : Block) (shouldReturn : Class) :
  ValidateBlockReturns st Body shouldReturn = Ok true ->
  ResolveValueObject E st Condition = Ok (Some (BooleanLiteral false)) ->
  let loop := mkBlock [mkBlockStatement (NWhileStatement (mkWhileStatement Condition Body))] in
  ValidateBlockReturns st loop shouldReturn = Ok true
  /\ ResolveBlock (S (S (S fuel))) loop st = (Ok None, st).
Proof.
  intros Hb Hc loop. split.
  - simpl. simpl in Hb. rewrite Hb. reflexivity.
  - unfold loop. rewrite ResolveBlock_S. cbn [Statements runStatements]. unfold bindS.
    rewrite ResolveBlockStatement_While, (ResolveWhileStatement_false _ _ _ _ Hc). reflexivity.
Qed.

End Engine.

(** * The properties on concrete programs *)

(** C1 at [x = 1] in a table where [x] is 0: the evaluation panics where the
    write-back indexes the empty rest of the selector, and [x] is not
    rebound; the same for [x += 1], and for the statement inside a block. *)
Theorem assignment_to_single_name_panics :
  ResolveAssignmentExpression exampleEvaluator assignOne (tableWith "x" (IntegerLiteral 0))
    = (Panic "index out of range [0] with length 0", tableWith "x" (IntegerLiteral 0))
  /\ ResolveAssignmentExpression exampleEvaluator addAssignOne (tableWith "x" (IntegerLiteral 0))
    = (Panic "index out of range [0] with length 0", tableWith "x" (IntegerLiteral 0))
  /\ fst (ResolveBlock exampleEvaluator 3
            (mkBlock [declare "x" (int 0); stmt (NAssignmentExpression assignOne)]) emptyTable)
    = Panic "index out of range [0] with length 0".
Proof. repeat split; reflexivity. Qed.

(** C2, its counterexample: in [switchTwice] both cases compare equal to the
    target and neither body returns a value; the evaluation executes the
    body of the second case as well ([b] is bound afterwards), where the
    switch that stops at the first match leaves [b] unbound. The default
    case does not run. *)
Lemma switch_executes_later_matching_case :
  let after := ResolveSwitchBlock exampleEvaluator 5 switchTwice emptyTable in
  let afterFirstMatch := firstMatchSwitch exampleEvaluator 4 switchTwice emptyTable in
  fst after = Ok None
  /\ local (snd after) !! "a" = Some (OValue (IntegerLiteral 1))
  /\ local (snd after) !! "b" = Some (OValue (IntegerLiteral 2))
  /\ local (snd after) !! "c" = None
  /\ local (snd afterFirstMatch) !! "a" = Some (OValue (IntegerLiteral 1))
  /\ local (snd afterFirstMatch) !! "b" = None.
Proof. repeat split; reflexivity. Qed.

(** C2 as amended, on [switchOnName] where [x] is 1: the tests read the
    table, both cases match, and both bodies are run; the default case is
    not. And on [switchReturning]: the first body returns 7, which ends the
    switch before the second test, which would fail, is reached. *)
Lemma ResolveSwitchBlock_runs_matching_cases_witness :
  ResolveSwitchBlock exampleEvaluator 5 switchOnName (tableWith "x" (IntegerLiteral 1))
  = matchingCases exampleEvaluator (ResolveBlock exampleEvaluator 4) (IntegerLiteral 1)
      [caseNameA; caseNameB; caseDefault]
      (runBlocks (ResolveBlock exampleEvaluator 4) [caseBody caseDefault])
      (tableWith "x" (IntegerLiteral 1))
  /\ fst (ResolveSwitchBlock exampleEvaluator 5 switchOnName
            (tableWith "x" (IntegerLiteral 1))) = Ok None
  /\ local (snd (ResolveSwitchBlock exampleEvaluator 5 switchOnName
                   (tableWith "x" (IntegerLiteral 1)))) !! "a"
     = Some (OValue (IntegerLiteral 1))
  /\ local (snd (ResolveSwitchBlock exampleEvaluator 5 switchOnName
                   (tableWith "x" (IntegerLiteral 1)))) !! "b"
     = Some (OValue (IntegerLiteral 2))
  /\ local (snd (ResolveSwitchBlock exampleEvaluator 5 switchOnName
                   (tableWith "x" (IntegerLiteral 1)))) !! "c"
     = None
  /\ ResolveSwitchBlock exampleEvaluator 5 switchReturning emptyTable
     = (Ok (Some (IntegerLiteral 7)), emptyTable).
Proof.
  refine (conj _ (conj eq_refl (conj eq_refl (conj eq_refl (conj eq_refl _))))).
  - exact (ResolveSwitchBlock_runs_matching_cases exampleEvaluator 4 (int 1)
             [caseNameA; caseNameB; caseDefault] (tableWith "x" (IntegerLiteral 1))
             (IntegerLiteral 1) eq_refl eq_refl).
  - exact (eq_trans
             (ResolveSwitchBlock_runs_matching_cases exampleEvaluator 4 (int 1)
                [caseReturnSeven; caseText] emptyTable (IntegerLiteral 1) eq_refl eq_refl)
             eq_refl).
Defined.

(** C3 at the loop body [{ continue }]: [ValidateLoopBlock] reports an
    unknown statement, so [while true { continue }] does not validate;
    [ValidateBlock] refuses the same block at its own level. *)
Theorem loop_block_rejects_continue :
  fst (ValidateLoopBlock exampleEvaluator (mkBlock [stmt NContinueStatement]) emptyTable)
    = Fail (NodeError "unknown block statement type nodes.ContinueStatement")
  /\ fst (ValidateLoopBlock exampleEvaluator (mkBlock [stmt NBreakStatement]) emptyTable)
    = Fail (NodeError "unknown block statement type nodes.BreakStatement")
  /\ fst (ValidateBlock exampleEvaluator (mkBlock [whileContinue]) emptyTable)
    = Fail (NodeError "unknown block statement type nodes.ContinueStatement")
  /\ fst (ValidateBlock exampleEvaluator (mkBlock [stmt NContinueStatement]) emptyTable)
    = Fail (NodeError "continue statement outside loop").
Proof. repeat split; reflexivity. Qed.

(** C4 at [x = 1] with [x] a String: a String can be constructed from an
    Integer, yet validation refuses the assignment, because it asks for an
    Integer from a String; and at [x = "a"] with [x] an Integer validation
    accepts an assignment whose coercion does not exist. *)
Theorem assignment_validation_reverses_coercion :
  ShouldConstruct exampleEvaluator (Some String_) (Some Integer) = Ok tt
  /\ fst (ValidateAssignmentExpression exampleEvaluator assignOne (tableWithClass "x" String_))
     = Fail (NodeError "cannot construct Integer from String")
  /\ ShouldConstruct exampleEvaluator (Some Integer) (Some String_)
     = Fail (Errorf "cannot construct Integer from String")
  /\ fst (ValidateAssignmentExpression exampleEvaluator
            (mkAssignmentExpression ["x"] ASSIGN (Lit (StringLiteral "a")))
            (tableWithClass "x" Integer))
     = Ok tt.
Proof. repeat split; reflexivity. Qed.

(** C5 at the Integer 3: the constructor registered for Integer asserts a
    [float64] on an [int64] and panics. *)
Theorem Construct_Double_from_Integer_panics :
  Construct exampleEvaluator Double (Some (IntegerLiteral 3))
  = Panic "interface conversion: interface {} is not float64".
Proof. reflexivity. Qed.

(** C6, its counterexample: [Nil], [Date] and [DateTime] have no constructor
    from themselves. *)
Lemma Construct_own_class_fails_for_Nil :
  primitive NilLiteral = true
  /\ Construct exampleEvaluator (Class_of NilLiteral) (Some NilLiteral)
     = Fail (Errorf "cannot construct <nil> from <nil>")
  /\ Construct exampleEvaluator (Class_of DateLiteral) (Some DateLiteral)
     = Fail (Errorf "cannot construct Date from Date")
  /\ Construct exampleEvaluator (Class_of DateTimeLiteral) (Some DateTimeLiteral)
     = Fail (Errorf "cannot construct DateTime from DateTime").
Proof. repeat split; reflexivity. Qed.

(** C6 as amended, on the Integer 7. *)
Lemma Construct_own_class_witness :
  Construct exampleEvaluator (Class_of (IntegerLiteral 7)) (Some (IntegerLiteral 7))
  = Ok (IntegerLiteral 7).
Proof. exact (Construct_own_class exampleEvaluator (IntegerLiteral 7) eq_refl). Defined.

(** C7 on [fn(c: Boolean): Integer { if c { return 1 } }], whose condition
    reads the argument, and on [fn(): Integer { if true { return 1 } }]. *)
Lemma if_without_else_expected_return_witness :
  ResolveFunctionBlock exampleEvaluator emptyTable ifArgumentWithoutElse None
  = Fail (NodeError "expected return")
  /\ ResolveFunctionBlock exampleEvaluator emptyTable ifWithoutElse None
     = Fail (NodeError "expected return").
Proof.
  split.
  - exact (proj2 (if_without_else_expected_return exampleEvaluator emptyTable
                    (tableWithClass "c" Boolean) None [ArgumentItem "c" Boolean] [Boolean]
                    Integer (Ident "c") (int 1) Integer Integer
                    eq_refl eq_refl eq_refl eq_refl eq_refl)).
  - exact (proj2 (if_without_else_expected_return exampleEvaluator emptyTable emptyTable None
                    [] [] Integer (Lit (BooleanLiteral true)) (int 1) Integer Integer
                    eq_refl eq_refl eq_refl eq_refl eq_refl)).
Defined.

(** C8 on [3 + 2.5] with an Integer on the left: the rule exists and returns
    the Integer 5, the truncation of 5.5. *)
Lemma numeric_rules_witness :
  exists rule,
    operatorRule Integer Double ADD = Some rule
    /\ rule (IntegerLiteral 3) (DoubleLiteral 2.5) = Ok (IntegerLiteral 5).
Proof.
  destruct (numeric_rules exampleEvaluator Integer Double ADD (IntegerLiteral 3)
              (DoubleLiteral 2.5) 3 2.5 eq_refl eq_refl eq_refl eq_refl)
    as (_ & Hop & _).
  destruct (Hop 5.5%float eq_refl) as (rule & r & Hrule & Happ & Hfrom & _).
  exists rule. split; [exact Hrule|].
  injection Hfrom as <-. exact Happ.
Defined.

(** C9 on ["abc".Get("length")]. *)
Lemma StringLiteral_Get_other_key_witness :
  Value_Get exampleEvaluator (StringLiteral "abc") "length" = Some (OFunction zeroFunction).
Proof.
  refine (proj1 (StringLiteral_Get_other_key exampleEvaluator "abc" "length" _ _));
    discriminate.
Defined.

(** C10 on [fn() { return 1 }]: the body evaluates to 1 and the call
    returns nil. *)
Lemma Call_without_return_type_witness :
  ResolveBlock exampleEvaluator 2 (Body returnsOne) emptyTable
    = (Ok (Some (IntegerLiteral 1)), emptyTable)
  /\ Call exampleEvaluator 3
       (mkFunction [] None (Some (blockHandler emptyTable returnsOne None))) [] None
     = Ok None.
Proof.
  split; [reflexivity|].
  refine (proj2 (Call_without_return_type exampleEvaluator emptyTable returnsOne None
                   (mkFunction [] None (Some (blockHandler emptyTable returnsOne None)))
                   eq_refl eq_refl)
            2%nat [] [] None emptyTable emptyTable (Some (IntegerLiteral 1))
            eq_refl eq_refl eq_refl eq_refl).
Defined.


(** X3 on the constructor of String from Integer, at 7. *)
Lemma constructor_result_class_witness :
  exists fn,
    ConstructorMap_Get (Constructors exampleEvaluator String_) Integer = Some fn
    /\ fn (IntegerLiteral 7) = Ok (StringLiteral "7")
    /\ Class_of (StringLiteral "7") = String_.
Proof.
  eexists. split; [reflexivity|]. split; [reflexivity|].
  eapply (constructor_result_class exampleEvaluator String_ Integer _ (IntegerLiteral 7)
            (StringLiteral "7") eq_refl); reflexivity.
Defined.

(** X4 on String: the text of the Integer 7 is coerced to itself. *)
Lemma constructor_idempotent_witness :
  call1 (ConstructorMap_Get (Constructors exampleEvaluator String_) String_) (StringLiteral "7")
  = Ok (StringLiteral "7").
Proof.
  apply (constructor_idempotent exampleEvaluator String_ (IntegerLiteral 7) (StringLiteral "7")
           eq_refl); [discriminate | reflexivity].
Defined.

(** X5 on Integer from the Double 2.5. *)
Lemma numeric_constructors_witness :
  exists r,
    call1 (ConstructorMap_Get (Constructors exampleEvaluator Integer) Double) (DoubleLiteral 2.5)
    = Ok r
    /\ Class_of r = Integer.
Proof.
  destruct (numeric_constructors exampleEvaluator Integer (DoubleLiteral 2.5) 2.5
              eq_refl eq_refl) as (r & Hr & Hclass & _).
  exists r. split; assumption.
Defined.

(** X9 on ["abc".length()]. *)
Lemma StringLiteral_missing_method_call_witness :
  exists fn,
    Value_Get exampleEvaluator (StringLiteral "abc") "length" = Some (OFunction fn)
    /\ Call exampleEvaluator 1 fn [] None
       = Panic "invalid memory address or nil pointer dereference".
Proof.
  destruct (StringLiteral_missing_method_call exampleEvaluator "abc" "length" 0 None)
    as (fn & Hget & Hcall & _); [discriminate | discriminate |].
  exists fn. split; assumption.
Defined.

(** The arity check on a function of two arguments called with one. *)
Lemma Call_wrong_arity_witness :
  Call exampleEvaluator 1 (mkFunction [Integer; Integer] None None)
    [Some (IntegerLiteral 1)] None
  = Fail (arityError 2 1).
Proof.
  apply (Call_wrong_arity exampleEvaluator 0 (mkFunction [Integer; Integer] None None)
           [Some (IntegerLiteral 1)] None).
  discriminate.
Defined.

(** X10 on a method that takes a String, called with the Integer 7. *)
Lemma ResolveMethodArguments_sound_witness :
  ValidateMethodArguments exampleEvaluator (mkFunction [String_] None None) [Some Integer]
  = Ok tt.
Proof.
  exact (proj2 (proj2 (ResolveMethodArguments_sound exampleEvaluator
                         (mkFunction [String_] None None)
                         [Some (IntegerLiteral 7)] [Some (StringLiteral "7")] eq_refl))).
Defined.

(** X11 on [returnsText], called without its argument. *)
Lemma ResolveFunctionBlock_arity_witness :
  Call exampleEvaluator 1 textFn [] None = Fail (arityError 1 0).
Proof.
  refine (proj2 (proj2 (proj2 (ResolveFunctionBlock_arity exampleEvaluator emptyTable
                                 returnsText None textFn eq_refl))) 0%nat [] None _).
  discriminate.
Defined.

(** X12 on [returnsText] called with 7: the result is the String ["7"]. *)
Lemma Call_with_return_type_witness :
  Call exampleEvaluator 4 textFn [Some (IntegerLiteral 7)] None = Ok (Some (StringLiteral "7"))
  /\ exists r, Some (StringLiteral "7") = Some r /\ Class_of r = String_.
Proof.
  split; [reflexivity|].
  apply (Call_with_return_type exampleEvaluator emptyTable returnsText None textFn String_
           eq_refl eq_refl eq_refl 4%nat [Some (IntegerLiteral 7)] None
           (Some (StringLiteral "7"))).
  reflexivity.
Defined.

(** X13 on [let x = 1] where [x] is bound. *)
Lemma declaration_of_bound_name_fails_witness :
  exists msg,
    ResolveDeclarationStatement exampleEvaluator (mkDeclarationStatement "x" (int 1)) true
      (tableWith "x" (IntegerLiteral 0))
    = (Fail (NodeError (msg +:+ "x")), tableWith "x" (IntegerLiteral 0))
    /\ (msg = "cannot reassign immutable variable " \/ msg = "cannot redeclare variable ").
Proof.
  apply (declaration_of_bound_name_fails exampleEvaluator (tableWith "x" (IntegerLiteral 0))
           "x" (int 1) true).
  right. eexists. reflexivity.
Defined.

(** X14 on [let x = 1] in the empty table. *)
Lemma declaration_binds_witness :
  local (snd (ResolveDeclarationStatement exampleEvaluator
                (mkDeclarationStatement "x" (int 1)) true emptyTable)) !! "x"
  = Some (OValue (IntegerLiteral 1)).
Proof.
  exact (proj1 (proj2 (proj1 (declaration_binds exampleEvaluator emptyTable "x" (int 1)
                                (Some (IntegerLiteral 1)) (Some Integer)
                                eq_refl eq_refl eq_refl eq_refl)))).
Defined.

(** X16 on [self.a = 1] in a method body. *)
Lemma immutable_name_is_protected_witness :
  ResolveAssignmentExpression exampleEvaluator
    (mkAssignmentExpression ["self"; "a"] ASSIGN (int 1)) (tableWithSelf (IntegerLiteral 0))
  = (Fail (NodeError "cannot reassign immutable variable self"),
     tableWithSelf (IntegerLiteral 0)).
Proof.
  refine (proj1 (immutable_name_is_protected exampleEvaluator (tableWithSelf (IntegerLiteral 0))
                   "self" ["a"] ASSIGN (int 1) true _)).
  eexists. reflexivity.
Defined.

(** X18 on [forContinue] with fuel 10. *)
Lemma for_continue_never_ends_witness :
  ResolveForStatement exampleEvaluator 10 forContinue emptyTable = (OutOfFuel, emptyTable).
Proof.
  exact (for_continue_never_ends exampleEvaluator
           (Some (mkDeclarationStatement "i" (int 0))) (Lit (BooleanLiteral true)) UpdateNone []
           emptyTable (tableWith "i" (IntegerLiteral 0)) eq_refl eq_refl 10%nat).
Defined.

(** X19 on [while true { if true { break } }]. *)
Lemma nested_loop_control_fails_witness :
  ResolveWhileStatement exampleEvaluator 5 whileIfBreak emptyTable
  = (Fail (NodeError "unknown block statement type nodes.BreakStatement"), emptyTable).
Proof.
  exact (proj2 (nested_loop_control_fails exampleEvaluator 0 (Lit (BooleanLiteral true))
                  (stmt NBreakStatement) [] AlternateNone emptyTable eq_refl eq_refl)).
Defined.

(** X21, once on [return 1; let x = 1], which returns 1 and leaves [x]
    unbound, and once on [return e; return e] with an [e] that evaluates to
    nil, which goes on to the second statement. *)
Lemma return_nil_falls_through_witness :
  ResolveBlock exampleEvaluator 2
    (mkBlock [stmt (NReturnStatement (int 1)); declare "x" (int 1)]) emptyTable
  = (Ok (Some (IntegerLiteral 1)), emptyTable)
  /\ ResolveBlock nilEvaluator 2
       (mkBlock [mkBlockStatement (NReturnStatement tt); mkBlockStatement (NReturnStatement tt)])
       (mkSymbolTable ∅ ∅)
     = ResolveBlock nilEvaluator 2 (mkBlock [mkBlockStatement (NReturnStatement tt)])
         (mkSymbolTable ∅ ∅).
Proof.
  split.
  - exact (return_nil_falls_through exampleEvaluator 0 (int 1) [declare "x" (int 1)] emptyTable
             (Some (IntegerLiteral 1)) eq_refl).
  - exact (return_nil_falls_through nilEvaluator 0 tt [mkBlockStatement (NReturnStatement tt)]
             (mkSymbolTable ∅ ∅) None eq_refl).
Defined.

(** X23 on the block [{ let x = 1 }]. *)
Lemma ValidateBlock_is_ValidateLoopBlock_witness :
  ValidateBlock exampleEvaluator (mkBlock [declare "x" (int 1)]) emptyTable
  = ValidateLoopBlock exampleEvaluator (mkBlock [declare "x" (int 1)]) emptyTable.
Proof.
  exact (ValidateBlock_is_ValidateLoopBlock exampleEvaluator [declare "x" (int 1)] emptyTable
           eq_refl).
Defined.

(** X25 on [switch true { default: }]: it validates and fails when run. *)
Lemma switch_target_must_be_numeric_witness :
  ResolveSwitchBlock exampleEvaluator 1
    (mkSwitchBlock (Lit (BooleanLiteral true)) [mkCaseBlock true None (mkBlock [])]) emptyTable
  = (Fail InoperableSwitchTargetError, emptyTable)
  /\ ValidateSwitchBlock exampleEvaluator
       (mkSwitchBlock (Lit (BooleanLiteral true)) [mkCaseBlock true None (mkBlock [])])
       emptyTable
     = (Ok tt, emptyTable).
Proof.
  destruct (switch_target_must_be_numeric exampleEvaluator 0 (Lit (BooleanLiteral true))
              [mkCaseBlock true None (mkBlock [])] emptyTable (BooleanLiteral true)
              eq_refl eq_refl eq_refl) as [Hrun Hvalidate].
  split; [exact Hrun | exact (Hvalidate (mkBlock []) eq_refl)].
Defined.

(** X27 on [switch 1 { case 1: return 1; default: return 2 }]. *)
Lemma ValidateSwitchBlockReturns_true_witness :
  exists c,
    In c [caseReturn; defaultReturn] /\ caseIsDefault c = true
    /\ ValidateBlockReturns exampleEvaluator emptyTable (caseBody c) Integer = Ok true.
Proof.
  exact (proj1 (ValidateSwitchBlockReturns_true exampleEvaluator emptyTable (int 1)
                  [caseReturn; defaultReturn] Integer eq_refl)).
Defined.

(** X28 on [while false { return 1 }]. *)
Lemma while_coverage_without_value_witness :
  ValidateBlockReturns exampleEvaluator emptyTable whileFalseReturn Integer = Ok true
  /\ ResolveBlock exampleEvaluator 3 whileFalseReturn emptyTable = (Ok None, emptyTable).
Proof.
  exact (while_coverage_without_value exampleEvaluator 0 emptyTable (Lit (BooleanLiteral false))
           (mkBlock [stmt (NReturnStatement (int 1))]) Integer eq_refl eq_refl).
Defined.
